(** * gorest: a fluent HTTP request builder

    A shallow embedding of [gorest.go] (the [RestClient] builder, its
    parameter merge [toMap], the FORM serializer [changeMapToURLValues],
    [Request] and [Receive]) together with the small part of the Go standard
    library the builder calls: [strconv], [net/url], [encoding/json],
    [encoding/base64] and [net/http].

    Conventions.
    - A Go [string] or [[]byte] is a Rocq [string] (a sequence of bytes).
    - A Go [error] is its message; a call returns [Ok v], [Err msg], or
      [Panic msg] when the Go runtime would abort it.
    - A [float64] is a [spec_float] of precision 53 (IEEE 754 binary64), a
      [float32] one of precision 24.
    - A Go map is a [gmap]; a slice that is shared between two owners is a
      pointer into a store of backing arrays, with its length and capacity. *)

From Stdlib Require Import ZArith String Ascii List SpecFloat DecimalString Lia.
From stdpp Require Import gmap strings list fin_maps.

Open Scope Z_scope.

(** ** Outcomes of a Go call *)

Module Go.

Definition error := string.

Inductive result (A : Type) : Type :=
| Ok (a : A)
| Err (e : error)
| Panic (msg : string).

Arguments Ok {A} a.
Arguments Err {A} e.
Arguments Panic {A} msg.

Definition bind {A B : Type} (r : result A) (k : A -> result B) : result B :=
  match r with
  | Ok a => k a
  | Err e => Err e
  | Panic msg => Panic msg
  end.

Definition is_Ok {A : Type} (r : result A) : bool :=
  match r with Ok _ => true | _ => false end.

Definition is_Panic {A : Type} (r : result A) : bool :=
  match r with Panic _ => true | _ => false end.

(** The runtime error of a nil dereference or a call of a nil func value. *)
Definition nil_dereference : string :=
  "runtime error: invalid memory address or nil pointer dereference".

End Go.

Export Go.

#[global] Instance result_ret : MRet result := @Ok.
#[global] Instance result_bind : MBind result := fun A B k r => Go.bind r k.

(** ** Byte strings *)

Module Bytes.

Definition byte_of (c : ascii) : Z := Z.of_N (N_of_ascii c).
Definition of_byte (n : Z) : ascii := ascii_of_N (Z.to_N n).

Definition to_list : string -> list ascii := list_ascii_of_string.
Definition of_list : list ascii -> string := string_of_list_ascii.

Definition is_digit (c : ascii) : bool := (48 <=? byte_of c) && (byte_of c <=? 57).
Definition is_upper (c : ascii) : bool := (65 <=? byte_of c) && (byte_of c <=? 90).
Definition is_lower (c : ascii) : bool := (97 <=? byte_of c) && (byte_of c <=? 122).
Definition is_alpha (c : ascii) : bool := is_upper c || is_lower c.

Definition to_lower (c : ascii) : ascii :=
  if is_upper c then of_byte (byte_of c + 32) else c.
Definition to_upper (c : ascii) : ascii :=
  if is_lower c then of_byte (byte_of c - 32) else c.

Fixpoint map_string (f : ascii -> ascii) (s : string) : string :=
  match s with
  | EmptyString => EmptyString
  | String c r => String (f c) (map_string f r)
  end.

Fixpoint forallb_string (f : ascii -> bool) (s : string) : bool :=
  match s with
  | EmptyString => true
  | String c r => f c && forallb_string f r
  end.

Definition existsb_string (f : ascii -> bool) (s : string) : bool :=
  negb (forallb_string (fun c => negb (f c)) s).

Definition contains_byte (c : ascii) (s : string) : bool :=
  existsb_string (Ascii.eqb c) s.

(** [strings.Cut s sep] for a one-byte separator: the text before the first
    [sep], the text after it, and whether [sep] occurs. *)
Fixpoint cut (sep : ascii) (s : string) : string * string * bool :=
  match s with
  | EmptyString => (EmptyString, EmptyString, false)
  | String c r =>
      if Ascii.eqb c sep then (EmptyString, r, true)
      else let '(a, b, found) := cut sep r in (String c a, b, found)
  end.

(** The text up to and including the last [sep], or [""] without one:
    [s[:strings.LastIndex(s, sep)+1]]. *)
Fixpoint through_last (sep : ascii) (s : string) : string :=
  match s with
  | EmptyString => EmptyString
  | String c r =>
      if contains_byte sep r then String c (through_last sep r)
      else if Ascii.eqb c sep then String c EmptyString
      else EmptyString
  end.

(** The text before the last [sep], or [None] without one. *)
Fixpoint before_last (sep : ascii) (s : string) : option string :=
  match s with
  | EmptyString => None
  | String c r =>
      match before_last sep r with
      | Some a => Some (String c a)
      | None => if Ascii.eqb c sep then Some EmptyString else None
      end
  end.

Definition has_prefix (p s : string) : bool := String.prefix p s.

Definition drop (n : nat) (s : string) : string :=
  String.substring n (String.length s - n)%nat s.

Fixpoint repeat_byte (c : ascii) (n : nat) : string :=
  match n with
  | O => EmptyString
  | S k => String c (repeat_byte c k)
  end.

Definition hex_digit (upper : bool) (n : Z) : ascii :=
  if n <? 10 then of_byte (48 + n)
  else of_byte ((if upper then 55 else 87) + n).

Definition unhex (c : ascii) : option Z :=
  let b := byte_of c in
  if is_digit c then Some (b - 48)
  else if (97 <=? b) && (b <=? 102) then Some (b - 87)
  else if (65 <=? b) && (b <=? 70) then Some (b - 55)
  else None.

Definition is_hex (c : ascii) : bool :=
  match unhex c with Some _ => true | None => false end.

(** The one-byte string holding a double quote. *)
Definition dquote : string := String (of_byte 34) EmptyString.

Definition join (sep : string) (l : list string) : string := String.concat sep l.

End Bytes.

(** ** strconv *)

Module strconv.

(** [float64] and [float32] values: binary64 and binary32. *)
Definition float64 := spec_float.
Definition float32 := spec_float.

Record floatInfo := { prec : Z; emax : Z }.
Definition float64info : floatInfo := {| prec := 53; emax := 1024 |}.
Definition float32info : floatInfo := {| prec := 24; emax := 128 |}.

Definition info_of (bitSize : Z) : floatInfo :=
  if bitSize =? 32 then float32info else float64info.

(** The conversion [float64(f)] of a [float32]: the same real number. *)
Definition float64_of_float32 (f : float32) : float64 :=
  match f with
  | S754_finite s m e =>
      binary_normalize 53 1024 (if s then Z.neg m else Z.pos m) e s
  | _ => f
  end.

Definition FormatBool (b : bool) : string := if b then "true" else "false".

(** [FormatInt(i, 10)]. *)
Definition FormatInt (i : Z) : string := NilZero.string_of_int (Z.to_int i).

(** *** Shortest decimal that reads back as the same float

    A finite float [m * 2^e] owns the reals between the midpoints to its
    two neighbours, ends included when [m] is even.  [shortest] returns the
    decimal [d * 10^p] inside that interval with the largest [p], the one
    nearest to the float when two qualify (ties to the even digit): the
    digits of [FormatFloat(f, fmt, -1, bitSize)]. *)

Record bounds := { bX : Z; bL : Z; bU : Z; bD : Z; bIncl : bool }.

(** The float, its lower and upper midpoints as fractions over [bD]. *)
Definition float_bounds (fi : floatInfo) (m : positive) (e : Z) : bounds :=
  let mz := Z.pos m in
  let boundary := (mz =? 2 ^ (prec fi - 1)) && (emin (prec fi) (emax fi) <? e) in
  let x4 := 4 * mz in
  let l4 := if boundary then 4 * mz - 1 else 4 * mz - 2 in
  let u4 := 4 * mz + 2 in
  let sh := e - 2 in
  if 0 <=? sh
  then {| bX := x4 * 2 ^ sh; bL := l4 * 2 ^ sh; bU := u4 * 2 ^ sh; bD := 1;
          bIncl := Z.even mz |}
  else {| bX := x4; bL := l4; bU := u4; bD := 2 ^ (- sh); bIncl := Z.even mz |}.

Definition in_bounds (b : bounds) (scale unit c : Z) : bool :=
  let v := c * unit in
  if bIncl b then (bL b * scale <=? v) && (v <=? bU b * scale)
  else (bL b * scale <? v) && (v <? bU b * scale).

(** One decimal position [p]: the candidate digits, if any. *)
Definition try_position (b : bounds) (p : Z) : option Z :=
  let scale := 10 ^ Z.max 0 (- p) in
  let unit := bD b * 10 ^ Z.max 0 p in
  let a := bX b * scale in
  let dn := a / unit in
  let okdown := (0 <? dn) && in_bounds b scale unit dn in
  let okup := in_bounds b scale unit (dn + 1) in
  match okdown, okup with
  | true, true =>
      let below := a - dn * unit in
      let above := (dn + 1) * unit - a in
      if below <? above then Some dn
      else if above <? below then Some (dn + 1)
      else if Z.even dn then Some dn else Some (dn + 1)
  | true, false => Some dn
  | false, true => Some (dn + 1)
  | false, false => None
  end.

Fixpoint search (fuel : nat) (b : bounds) (p : Z) : Z * Z :=
  match try_position b p with
  | Some d => (d, p)
  | None =>
      match fuel with
      | O => (bX b, 0)
      | S k => search k b (p - 1)
      end
  end.

(** Number of decimal digits of a positive integer. *)
Definition ndigits (n : Z) : Z := Z.of_nat (String.length (FormatInt n)).

Definition shortest (fi : floatInfo) (m : positive) (e : Z) : Z * Z :=
  let b := float_bounds fi m e in
  let top := ndigits (bX b / bD b) in
  search (Z.to_nat (top + Z.max 0 (2 - e) + 1)) b top.

Definition sign_prefix (s : bool) : string := if s then "-" else "".

(** [%f] layout of the digits [d * 10^p]. *)
Definition layout_f (d p : Z) : string :=
  let ds := FormatInt d in
  if 0 <=? p then ds +:+ Bytes.repeat_byte "0" (Z.to_nat p)
  else
    let n := Z.to_nat (- p) in
    let len := String.length ds in
    if (len <=? n)%nat
    then "0." +:+ Bytes.repeat_byte "0" (n - len) +:+ ds
    else String.substring 0 (len - n) ds +:+ "." +:+ String.substring (len - n) n ds.

(** [%e] layout: one digit, the others after the point, a signed exponent
    of at least two digits. *)
Definition layout_e (d p : Z) : string :=
  let ds := FormatInt d in
  let len := String.length ds in
  let ex := p + Z.of_nat len - 1 in
  let mant := if (len <=? 1)%nat then ds
              else String.substring 0 1 ds +:+ "." +:+ String.substring 1 (len - 1) ds in
  let es := FormatInt (Z.abs ex) in
  mant +:+ "e" +:+ (if ex <? 0 then "-" else "+")
       +:+ (if Z.abs ex <? 10 then "0" else "") +:+ es.

Definition format_special (f : spec_float) (finite : bool -> positive -> Z -> string)
    (zero : string) : string :=
  match f with
  | S754_nan => "NaN"
  | S754_infinity s => if s then "-Inf" else "+Inf"
  | S754_zero s => sign_prefix s +:+ zero
  | S754_finite s m e => finite s m e
  end.

(** [FormatFloat(f, 'f', -1, bitSize)]. *)
Definition FormatFloat_f (f : spec_float) (bitSize : Z) : string :=
  format_special f
    (fun s m e => let '(d, p) := shortest (info_of bitSize) m e in
                  sign_prefix s +:+ layout_f d p)
    "0".

(** [FormatFloat(f, 'e', -1, bitSize)]. *)
Definition FormatFloat_e (f : spec_float) (bitSize : Z) : string :=
  format_special f
    (fun s m e => let '(d, p) := shortest (info_of bitSize) m e in
                  sign_prefix s +:+ layout_e d p)
    "0e+00".

(** *** Reading a decimal literal *)

Fixpoint read_digits (s : string) (acc count : Z) : Z * Z * string :=
  match s with
  | String c r =>
      if Bytes.is_digit c then read_digits r (10 * acc + (Bytes.byte_of c - 48)) (count + 1)
      else (acc, count, s)
  | EmptyString => (acc, count, s)
  end.

Definition read_sign (s : string) : bool * string :=
  match s with
  | String "-" r => (true, r)
  | String "+" r => (false, r)
  | _ => (false, s)
  end.

(** A literal [[+-]digits[.digits][(e|E)[+-]digits]] as sign, integer
    mantissa and decimal exponent. *)
Definition read_decimal (s : string) : option (bool * Z * Z) :=
  let '(neg, s1) := read_sign s in
  let '(ip, nip, s2) := read_digits s1 0 0 in
  let '(fp, nfp, s3) :=
    match s2 with
    | String "." r => read_digits r ip 0
    | _ => (ip, 0, s2)
    end in
  if nip + nfp =? 0 then None
  else
    match s3 with
    | EmptyString => Some (neg, fp, - nfp)
    | String c r =>
        if Ascii.eqb c "e" || Ascii.eqb c "E" then
          let '(eneg, s4) := read_sign r in
          let '(ex, nex, s5) := read_digits s4 0 0 in
          match s5 with
          | EmptyString =>
              if nex =? 0 then None
              else Some (neg, fp, (if eneg then - ex else ex) - nfp)
          | _ => None
          end
        else None
    end.

(** The float nearest to [d * 10^k], ties to even. *)
Definition round_decimal (fi : floatInfo) (neg : bool) (d k : Z) : spec_float :=
  if d =? 0 then S754_zero neg
  else if 0 <=? k then
    binary_normalize (prec fi) (emax fi) ((if neg then - d else d) * 10 ^ k) 0 neg
  else
    let '(q, e, l) := SFdiv_core_binary (prec fi) (emax fi) d 0 (10 ^ (- k)) 0 in
    binary_round_aux (prec fi) (emax fi) neg q e l.

(** [ParseFloat(s, bitSize)] on decimal literals. *)
Definition ParseFloat (s : string) (bitSize : Z) : result spec_float :=
  match read_decimal s with
  | None => Err ("strconv.ParseFloat: parsing " +:+ s +:+ ": invalid syntax")
  | Some (neg, d, k) =>
      match round_decimal (info_of bitSize) neg d k with
      | S754_infinity _ => Err ("strconv.ParseFloat: parsing " +:+ s +:+ ": value out of range")
      | f => Ok f
      end
  end.

End strconv.

(** ** encoding/base64 *)

Module base64.

Definition alphabet : string :=
  "ABCDEFGHIJKLMNOPQRSTUVWXYZabcdefghijklmnopqrstuvwxyz0123456789+/".

Definition sextet (n : Z) : ascii :=
  match String.get (Z.to_nat n) alphabet with
  | Some c => c
  | None => "="%char
  end.

(** [StdEncoding.EncodeToString]: three bytes become four characters, the
    last group is padded with [=]. *)
Fixpoint encode (l : list ascii) : string :=
  match l with
  | [] => ""
  | [a] =>
      let n := Bytes.byte_of a in
      String (sextet (n / 4)) (String (sextet (n mod 4 * 16)) "==")
  | [a; b] =>
      let n := Bytes.byte_of a * 256 + Bytes.byte_of b in
      String (sextet (n / 1024)) (String (sextet (n / 16 mod 64))
        (String (sextet (n mod 16 * 4)) "="))
  | a :: b :: c :: r =>
      let n := Bytes.byte_of a * 65536 + Bytes.byte_of b * 256 + Bytes.byte_of c in
      String (sextet (n / 262144)) (String (sextet (n / 4096 mod 64))
        (String (sextet (n / 64 mod 64)) (String (sextet (n mod 64)) (encode r))))
  end.

Definition EncodeToString (s : string) : string := encode (Bytes.to_list s).

End base64.

(** ** net/url *)

Module url.

Inductive encoding :=
| encodePath | encodeUserPassword | encodeHost | encodeQueryComponent | encodeFragment.

Definition mode_eqb (a b : encoding) : bool :=
  match a, b with
  | encodePath, encodePath | encodeUserPassword, encodeUserPassword
  | encodeHost, encodeHost | encodeQueryComponent, encodeQueryComponent
  | encodeFragment, encodeFragment => true
  | _, _ => false
  end.

Definition one_of (set : string) (c : ascii) : bool := Bytes.contains_byte c set.

(** [shouldEscape]: whether byte [c] must appear as [%XX] in the given part
    of a URL. *)
Definition shouldEscape (c : ascii) (mode : encoding) : bool :=
  if Bytes.is_alpha c || Bytes.is_digit c then false
  else if mode_eqb mode encodeHost && one_of ("!$&'()*+,;=:[]<>" +:+ Bytes.dquote) c then false
  else if one_of "-_.~" c then false
  else if one_of "$&+,/:;=?@" c then
    match mode with
    | encodePath => Ascii.eqb c "?"
    | encodeUserPassword => one_of "@/?:" c
    | encodeQueryComponent => true
    | encodeFragment => false
    | encodeHost => true
    end
  else if mode_eqb mode encodeFragment && one_of "!()*" c then false
  else true.

Fixpoint escape (s : string) (mode : encoding) : string :=
  match s with
  | EmptyString => EmptyString
  | String c r =>
      if shouldEscape c mode then
        if Ascii.eqb c " " && mode_eqb mode encodeQueryComponent
        then String "+" (escape r mode)
        else
          let n := Bytes.byte_of c in
          String "%" (String (Bytes.hex_digit true (n / 16))
            (String (Bytes.hex_digit true (n mod 16)) (escape r mode)))
      else String c (escape r mode)
  end.

(** [unescape]: decodes [%XX] (and [+] in a query component); fails on a
    malformed escape and, in a host, on a byte a host cannot hold. *)
Fixpoint unescape (s : string) (mode : encoding) : result string :=
  match s with
  | EmptyString => Ok EmptyString
  | String c r =>
      if Ascii.eqb c "%" then
        match r with
        | String h1 (String h2 r') =>
            match Bytes.unhex h1, Bytes.unhex h2 with
            | Some a, Some b =>
                if mode_eqb mode encodeHost && (a <? 8)
                   && negb (Ascii.eqb h1 "2" && Ascii.eqb h2 "5")
                then Err ("invalid URL escape " +:+ String.substring 0 3 s)
                else t ← unescape r' mode; Ok (String (Bytes.of_byte (16 * a + b)) t)
            | _, _ => Err ("invalid URL escape " +:+ String.substring 0 3 s)
            end
        | _ => Err ("invalid URL escape " +:+ String.substring 0 3 s)
        end
      else if Ascii.eqb c "+" && mode_eqb mode encodeQueryComponent then
        t ← unescape r mode; Ok (String " " t)
      else if mode_eqb mode encodeHost && (Bytes.byte_of c <? 128) && shouldEscape c encodeHost
      then Err ("invalid character " +:+ String c "" +:+ " in host name")
      else t ← unescape r mode; Ok (String c t)
  end.

Definition QueryEscape (s : string) : string := escape s encodeQueryComponent.

(** [validEncoded]: [s] is an acceptable escaped form for [mode]. *)
Definition validEncoded (s : string) (mode : encoding) : bool :=
  Bytes.forallb_string
    (fun c => one_of "!$&'()*+,;=:@[]%" c || negb (shouldEscape c mode)) s.

(** *** Values *)

(** [url.Values], a [map[string][]string]. *)
Abbreviation Values := (gmap string (list string)).

Definition Values_Add (v : Values) (key value : string) : Values :=
  <[key := default [] (v !! key) ++ [value]]> v.

Fixpoint insert_sorted (k : string) (l : list string) : list string :=
  match l with
  | [] => [k]
  | x :: r => if String.leb k x then k :: l else x :: insert_sorted k r
  end.

(** [sort.Strings]: byte-wise order. *)
Definition sort_strings (l : list string) : list string :=
  foldr insert_sorted [] l.

(** [Values.Encode]: [k=v] pairs joined by [&], keys sorted, the values of a
    key in their order. *)
Definition Values_Encode (v : Values) : string :=
  let keys := sort_strings (map fst (map_to_list v)) in
  let pairs k := map (fun x => QueryEscape k +:+ "=" +:+ QueryEscape x)
                     (default [] (v !! k)) in
  Bytes.join "&" (concat (map pairs keys)).

(** [url.ParseQuery]: the pairs of a query string; the first error is
    reported after all pairs have been read. *)
Definition QueryUnescape (s : string) : result string := unescape s encodeQueryComponent.

Fixpoint parseQuery (fuel : nat) (m : Values) (query : string) (err : option error)
    : Values * option error :=
  match fuel with
  | O => (m, err)
  | S k =>
      if String.eqb query "" then (m, err)
      else
        let '(item, rest, _) := Bytes.cut "&" query in
        if Bytes.contains_byte ";" item
        then parseQuery k m rest (Some "invalid semicolon separator in query")
        else if String.eqb item "" then parseQuery k m rest err
        else
          let '(key, value, _) := Bytes.cut "=" item in
          match QueryUnescape key, QueryUnescape value with
          | Ok key', Ok value' => parseQuery k (Values_Add m key' value') rest err
          | Ok _, Err e | Err e, _ =>
              parseQuery k m rest (match err with Some _ => err | None => Some e end)
          | _, _ => parseQuery k m rest err
          end
  end.

Definition ParseQuery (query : string) : Values * option error :=
  parseQuery (String.length query) ∅ query None.

(** *** URL *)

Record URL := {
  Scheme : string;
  Opaque : string;
  User : option string;     (* the userinfo as written *)
  Host : string;
  Path : string;
  RawPath : string;
  OmitHost : bool;
  ForceQuery : bool;
  RawQuery : string;
  Fragment : string;
  RawFragment : string
}.

Definition empty : URL :=
  {| Scheme := ""; Opaque := ""; User := None; Host := ""; Path := ""; RawPath := "";
     OmitHost := false; ForceQuery := false; RawQuery := ""; Fragment := "";
     RawFragment := "" |}.

Definition with_RawQuery (u : URL) (q : string) : URL :=
  {| Scheme := Scheme u; Opaque := Opaque u; User := User u; Host := Host u;
     Path := Path u; RawPath := RawPath u; OmitHost := OmitHost u;
     ForceQuery := ForceQuery u; RawQuery := q; Fragment := Fragment u;
     RawFragment := RawFragment u |}.

Definition with_Host (u : URL) (h : string) : URL :=
  {| Scheme := Scheme u; Opaque := Opaque u; User := User u; Host := h;
     Path := Path u; RawPath := RawPath u; OmitHost := OmitHost u;
     ForceQuery := ForceQuery u; RawQuery := RawQuery u; Fragment := Fragment u;
     RawFragment := RawFragment u |}.

Definition setPath (u : URL) (p : string) : result URL :=
  path ← unescape p encodePath;
  Ok {| Scheme := Scheme u; Opaque := Opaque u; User := User u; Host := Host u;
        Path := path;
        RawPath := if String.eqb p (escape path encodePath) then "" else p;
        OmitHost := OmitHost u; ForceQuery := ForceQuery u; RawQuery := RawQuery u;
        Fragment := Fragment u; RawFragment := RawFragment u |}.

Definition setFragment (u : URL) (f : string) : result URL :=
  frag ← unescape f encodeFragment;
  Ok {| Scheme := Scheme u; Opaque := Opaque u; User := User u; Host := Host u;
        Path := Path u; RawPath := RawPath u; OmitHost := OmitHost u;
        ForceQuery := ForceQuery u; RawQuery := RawQuery u;
        Fragment := frag;
        RawFragment := if String.eqb f (escape frag encodeFragment) then "" else f |}.

Definition EscapedPath (u : URL) : string :=
  if negb (String.eqb (RawPath u) "") && validEncoded (RawPath u) encodePath
     && match unescape (RawPath u) encodePath with
        | Ok p => String.eqb p (Path u)
        | _ => false
        end
  then RawPath u
  else if String.eqb (Path u) "*" then "*"
  else escape (Path u) encodePath.

Definition EscapedFragment (u : URL) : string :=
  if negb (String.eqb (RawFragment u) "") && validEncoded (RawFragment u) encodeFragment
     && match unescape (RawFragment u) encodeFragment with
        | Ok f => String.eqb f (Fragment u)
        | _ => false
        end
  then RawFragment u
  else escape (Fragment u) encodeFragment.

Definition stringContainsCTLByte (s : string) : bool :=
  Bytes.existsb_string (fun c => (Bytes.byte_of c <? 32) || (Bytes.byte_of c =? 127)) s.

(** [getScheme]: splits a leading [scheme:] off. *)
Fixpoint getScheme_from (i : nat) (s whole : string) : result (string * string) :=
  match s with
  | EmptyString => Ok ("", whole)
  | String c r =>
      if Bytes.is_alpha c then getScheme_from (S i) r whole
      else if Bytes.is_digit c || one_of "+-." c then
        match i with
        | O => Ok ("", whole)
        | _ => getScheme_from (S i) r whole
        end
      else if Ascii.eqb c ":" then
        match i with
        | O => Err "missing protocol scheme"
        | _ => Ok (String.substring 0 i whole, r)
        end
      else Ok ("", whole)
  end.

Definition getScheme (rawURL : string) : result (string * string) :=
  getScheme_from 0 rawURL rawURL.

Definition validOptionalPort (port : string) : bool :=
  match port with
  | EmptyString => true
  | String c r => Ascii.eqb c ":" && Bytes.forallb_string Bytes.is_digit r
  end.

(** [parseHost]; the zone of an IPv6 literal is kept as written. *)
Definition parseHost (host : string) : result string :=
  if Bytes.has_prefix "[" host then
    match Bytes.before_last "]" host with
    | None => Err "missing ']' in host"
    | Some lit =>
        let colonPort := Bytes.drop (S (String.length lit)) host in
        if validOptionalPort colonPort then Ok host
        else Err ("invalid port " +:+ colonPort +:+ " after host")
    end
  else
    match Bytes.before_last ":" host with
    | Some h =>
        let colonPort := Bytes.drop (String.length h) host in
        if validOptionalPort colonPort then unescape host encodeHost
        else Err ("invalid port " +:+ colonPort +:+ " after host")
    | None => unescape host encodeHost
    end.

Definition validUserinfo (s : string) : bool :=
  Bytes.forallb_string
    (fun c => Bytes.is_alpha c || Bytes.is_digit c || one_of "-._:~!$&'()*+,;=%@" c) s.

Definition parseAuthority (authority : string) : result (option string * string) :=
  match Bytes.before_last "@" authority with
  | None => host ← parseHost authority; Ok (None, host)
  | Some userinfo =>
      host ← parseHost (Bytes.drop (S (String.length userinfo)) authority);
      if validUserinfo userinfo
      then _ ← unescape userinfo encodeUserPassword; Ok (Some userinfo, host)
      else Err "net/url: invalid userinfo"
  end.

(** [parse(rawURL, viaRequest = false)], the fragment already removed. *)
Definition parse (rawURL : string) : result URL :=
  if stringContainsCTLByte rawURL then Err "net/url: invalid control character in URL"
  else if String.eqb rawURL "*" then
    Ok {| Scheme := ""; Opaque := ""; User := None; Host := ""; Path := "*"; RawPath := "";
          OmitHost := false; ForceQuery := false; RawQuery := ""; Fragment := "";
          RawFragment := "" |}
  else
    '(scheme, rest0) ← getScheme rawURL;
    let scheme := Bytes.map_string Bytes.to_lower scheme in
    let '(rest, query, found) := Bytes.cut "?" rest0 in
    let force := found && String.eqb query "" in
    let u0 := {| Scheme := scheme; Opaque := ""; User := None; Host := ""; Path := "";
                 RawPath := ""; OmitHost := false; ForceQuery := force;
                 RawQuery := query; Fragment := ""; RawFragment := "" |} in
    if negb (Bytes.has_prefix "/" rest) && negb (String.eqb scheme "") then
      Ok {| Scheme := scheme; Opaque := rest; User := None; Host := ""; Path := "";
            RawPath := ""; OmitHost := false; ForceQuery := force; RawQuery := query;
            Fragment := ""; RawFragment := "" |}
    else if negb (Bytes.has_prefix "/" rest)
            && Bytes.contains_byte ":" (fst (fst (Bytes.cut "/" rest)))
    then Err "first path segment in URL cannot contain colon"
    else if (negb (String.eqb scheme "") || negb (Bytes.has_prefix "///" rest))
            && Bytes.has_prefix "//" rest then
      let '(authority, tail, slash) := Bytes.cut "/" (Bytes.drop 2 rest) in
      '(user, host) ← parseAuthority authority;
      setPath {| Scheme := scheme; Opaque := ""; User := user; Host := host; Path := "";
                 RawPath := ""; OmitHost := false; ForceQuery := force;
                 RawQuery := query; Fragment := ""; RawFragment := "" |}
              (if slash then String "/" tail else "")
    else if negb (String.eqb scheme "") && Bytes.has_prefix "/" rest then
      setPath {| Scheme := scheme; Opaque := ""; User := None; Host := ""; Path := "";
                 RawPath := ""; OmitHost := true; ForceQuery := force;
                 RawQuery := query; Fragment := ""; RawFragment := "" |} rest
    else setPath u0 rest.

Definition parse_error (text : string) (e : error) : error :=
  "parse " +:+ Bytes.dquote +:+ text +:+ Bytes.dquote +:+ ": " +:+ e.

(** [url.Parse]. *)
Definition Parse (rawURL : string) : result URL :=
  let '(u, frag, _) := Bytes.cut "#" rawURL in
  match parse u with
  | Ok url =>
      if String.eqb frag "" then Ok url
      else match setFragment url frag with
           | Ok url' => Ok url'
           | Err e => Err (parse_error rawURL e)
           | Panic msg => Panic msg
           end
  | Err e => Err (parse_error u e)
  | Panic msg => Panic msg
  end.

(** [URL.String]: the text before the query, then the query and the
    fragment. *)
Definition String_head (u : URL) : string :=
  let head := if String.eqb (Scheme u) "" then "" else Scheme u +:+ ":" in
  if negb (String.eqb (Opaque u) "") then head +:+ Opaque u
  else
    let auth :=
      if negb (String.eqb (Scheme u) "") || negb (String.eqb (Host u) "")
         || bool_decide (User u <> None)
      then
        if OmitHost u && String.eqb (Host u) "" && bool_decide (User u = None) then ""
        else
          (if negb (String.eqb (Host u) "") || negb (String.eqb (Path u) "")
              || bool_decide (User u <> None) then "//" else "")
          +:+ match User u with Some ui => ui +:+ "@" | None => "" end
          +:+ escape (Host u) encodeHost
      else "" in
    let path := EscapedPath u in
    let pre := head +:+ auth in
    let pre :=
      if negb (String.eqb path "") && negb (Bytes.has_prefix "/" path)
         && negb (String.eqb (Host u) "")
      then pre +:+ "/" else pre in
    let pre :=
      if String.eqb pre "" && Bytes.contains_byte ":" (fst (fst (Bytes.cut "/" path)))
      then "./" else pre in
    pre +:+ path.

Definition String_query (u : URL) : string :=
  if ForceQuery u || negb (String.eqb (RawQuery u) "") then "?" +:+ RawQuery u else "".

Definition String_fragment (u : URL) : string :=
  if String.eqb (Fragment u) "" then "" else "#" +:+ EscapedFragment u.

Definition String_ (u : URL) : string :=
  String_head u +:+ String_query u +:+ String_fragment u.

(** [resolvePath]: RFC 3986 merge of [ref] into [base] and removal of the
    dot segments. *)
Fixpoint remove_dots (segs : list string) (dst : string) (first : bool) : string * string :=
  match segs with
  | [] => (dst, "")
  | elem :: rest =>
      let out :=
        if String.eqb elem "." then (dst, false)
        else if String.eqb elem ".." then
          match Bytes.before_last "/" (Bytes.drop 1 dst) with
          | None => ("/", true)
          | Some keep => ("/" +:+ keep, first)
          end
        else ((if first then dst else dst +:+ "/") +:+ elem, false) in
      match rest with
      | [] => (fst out, elem)
      | _ => remove_dots rest (fst out) (snd out)
      end
  end.

Fixpoint split_slash (fuel : nat) (s : string) : list string :=
  let '(a, b, found) := Bytes.cut "/" s in
  if found then
    match fuel with
    | O => [a]
    | S k => a :: split_slash k b
    end
  else [a].

Definition resolvePath (base ref : string) : string :=
  let full :=
    if String.eqb ref "" then base
    else if Bytes.has_prefix "/" ref then ref
    else Bytes.through_last "/" base +:+ ref in
  if String.eqb full "" then ""
  else
    let '(dst, last) := remove_dots (split_slash (String.length full) full) "/" true in
    let dst := if String.eqb last "." || String.eqb last ".." then dst +:+ "/" else dst in
    if Bytes.has_prefix "//" dst then Bytes.drop 1 dst else dst.

Definition force_path (u : URL) (p : string) : URL :=
  match setPath u p with
  | Ok u' => u'
  | _ => u
  end.

(** [URL.ResolveReference]. *)
Definition ResolveReference (u ref : URL) : URL :=
  let url := {| Scheme := if String.eqb (Scheme ref) "" then Scheme u else Scheme ref;
                Opaque := Opaque ref; User := User ref; Host := Host ref;
                Path := Path ref; RawPath := RawPath ref; OmitHost := OmitHost ref;
                ForceQuery := ForceQuery ref; RawQuery := RawQuery ref;
                Fragment := Fragment ref; RawFragment := RawFragment ref |} in
  if negb (String.eqb (Scheme ref) "") || negb (String.eqb (Host ref) "")
     || bool_decide (User ref <> None)
  then force_path url (resolvePath (EscapedPath ref) "")
  else if negb (String.eqb (Opaque ref) "") then
    {| Scheme := Scheme url; Opaque := Opaque url; User := None; Host := ""; Path := "";
       RawPath := RawPath url; OmitHost := OmitHost url; ForceQuery := ForceQuery url;
       RawQuery := RawQuery url; Fragment := Fragment url; RawFragment := RawFragment url |}
  else
    let inherit := String.eqb (Path ref) "" && negb (ForceQuery ref)
                   && String.eqb (RawQuery ref) "" in
    let keepfrag := inherit && String.eqb (Fragment ref) "" in
    let url := {| Scheme := Scheme url; Opaque := Opaque url; User := User url;
                  Host := Host url; Path := Path url; RawPath := RawPath url;
                  OmitHost := OmitHost url; ForceQuery := ForceQuery url;
                  RawQuery := if inherit then RawQuery u else RawQuery url;
                  Fragment := if keepfrag then Fragment u else Fragment url;
                  RawFragment := if keepfrag then RawFragment u else RawFragment url |} in
    if String.eqb (Path ref) "" && negb (String.eqb (Opaque u) "") then
      {| Scheme := Scheme url; Opaque := Opaque u; User := None; Host := ""; Path := "";
         RawPath := RawPath url; OmitHost := OmitHost url; ForceQuery := ForceQuery url;
         RawQuery := RawQuery url; Fragment := Fragment url;
         RawFragment := RawFragment url |}
    else
      force_path
        {| Scheme := Scheme url; Opaque := Opaque url; User := User u; Host := Host u;
           Path := Path url; RawPath := RawPath url; OmitHost := OmitHost url;
           ForceQuery := ForceQuery url; RawQuery := RawQuery url;
           Fragment := Fragment url; RawFragment := RawFragment url |}
        (resolvePath (EscapedPath u) (EscapedPath ref)).

End url.

(** ** Dynamic values

    What an [interface{}] can hold in this program: the kinds
    [changeMapToURLValues] switches on, the kinds [encoding/json] produces,
    and structs and maps given as parameter sources. *)

Inductive intType :=
| TInt | TInt8 | TInt16 | TInt32 | TInt64
| TUint | TUint8 | TUint16 | TUint32 | TUint64.

#[local] Set Warnings "-register-all".

Inductive any : Type :=
| Nil                                  (* nil: interface, pointer, map or slice *)
| Str (s : string)                     (* string *)
| Bool (b : bool)                      (* bool *)
| Number (lit : string)                (* json.Number *)
| Int (t : intType) (n : Z)            (* int, int8, ..., uint64 *)
| Float64 (f : strconv.float64)        (* float64 *)
| Float32 (f : strconv.float32)        (* float32 *)
| Strings (l : list string)            (* []string *)
| Ints (l : list Z)                    (* []int *)
| Bools (l : list bool)                (* []bool *)
| Float64s (l : list strconv.float64)  (* []float64 *)
| Float32s (l : list strconv.float32)  (* []float32 *)
| Slice (l : list any)                 (* []interface{} *)
| Map (m : list (string * any))        (* map[string]interface{} *)
| Struct (fields : list (string * any)) (* a struct: JSON name and value of each exported field *)
| Unsupported (type : string).         (* chan, func, complex *)

Definition intType_name (t : intType) : string :=
  match t with
  | TInt => "int" | TInt8 => "int8" | TInt16 => "int16" | TInt32 => "int32"
  | TInt64 => "int64" | TUint => "uint" | TUint8 => "uint8" | TUint16 => "uint16"
  | TUint32 => "uint32" | TUint64 => "uint64"
  end.

Definition intType_range (t : intType) : Z * Z :=
  match t with
  | TInt | TInt64 => (- 2 ^ 63, 2 ^ 63 - 1)
  | TInt8 => (- 2 ^ 7, 2 ^ 7 - 1)
  | TInt16 => (- 2 ^ 15, 2 ^ 15 - 1)
  | TInt32 => (- 2 ^ 31, 2 ^ 31 - 1)
  | TUint | TUint64 => (0, 2 ^ 64 - 1)
  | TUint8 => (0, 2 ^ 8 - 1)
  | TUint16 => (0, 2 ^ 16 - 1)
  | TUint32 => (0, 2 ^ 32 - 1)
  end.

Definition in_range (t : intType) (n : Z) : bool :=
  (fst (intType_range t) <=? n) && (n <=? snd (intType_range t)).

Definition type_name (v : any) : string :=
  match v with
  | Nil => "interface {}"
  | Str _ => "string"
  | Bool _ => "bool"
  | Number _ => "json.Number"
  | Int t _ => intType_name t
  | Float64 _ => "float64"
  | Float32 _ => "float32"
  | Strings _ => "[]string"
  | Ints _ => "[]int"
  | Bools _ => "[]bool"
  | Float64s _ => "[]float64"
  | Float32s _ => "[]float32"
  | Slice _ => "[]interface {}"
  | Map _ => "map[string]interface {}"
  | Struct _ => "struct"
  | Unsupported t => t
  end.

(** Assignment [m[k] = v] on a map kept as a list of distinct keys. *)
Fixpoint assoc_set (k : string) (v : any) (m : list (string * any)) : list (string * any) :=
  match m with
  | [] => [(k, v)]
  | (k', v') :: r => if String.eqb k k' then (k, v) :: r else (k', v') :: assoc_set k v r
  end.

Fixpoint assoc_get {A : Type} (k : string) (m : list (string * A)) : option A :=
  match m with
  | [] => None
  | (k', v) :: r => if String.eqb k k' then Some v else assoc_get k r
  end.

(** ** encoding/json *)

Module json.

(** *** Marshal *)

Definition hex4 (n : Z) : string :=
  String (Bytes.hex_digit false (n / 4096 mod 16))
    (String (Bytes.hex_digit false (n / 256 mod 16))
      (String (Bytes.hex_digit false (n / 16 mod 16))
        (String (Bytes.hex_digit false (n mod 16)) ""))).

(** The body of a string literal: quotes, backslashes, control bytes, the
    HTML bytes [<], [>], [&] and U+2028, U+2029 are escaped; other bytes are
    copied (the text is taken to be valid UTF-8). *)
Definition escape_byte (c : ascii) : string :=
  let n := Bytes.byte_of c in
  if n =? 34 then "\" +:+ Bytes.dquote
  else if n =? 92 then "\\"
  else if n =? 8 then "\b"
  else if n =? 12 then "\f"
  else if n =? 10 then "\n"
  else if n =? 13 then "\r"
  else if n =? 9 then "\t"
  else if (n <? 32) || (n =? 60) || (n =? 62) || (n =? 38) then "\u" +:+ hex4 n
  else String c "".

Fixpoint escape_string (s : string) : string :=
  match s with
  | EmptyString => EmptyString
  | String c r =>
      match r with
      | String c2 (String c3 r') =>
          if (Bytes.byte_of c =? 226) && (Bytes.byte_of c2 =? 128)
             && ((Bytes.byte_of c3 =? 168) || (Bytes.byte_of c3 =? 169))
          then "\u202" +:+ String (Bytes.hex_digit false (Bytes.byte_of c3 - 160)) ""
               +:+ escape_string r'
          else escape_byte c +:+ escape_string r
      | _ => escape_byte c +:+ escape_string r
      end
  end.

Definition quote (s : string) : string := Bytes.dquote +:+ escape_string s +:+ Bytes.dquote.

(** A JSON number: an optional minus, an integer part without a leading
    zero, an optional fraction, an optional exponent.  [scan_number s] is the
    length of the longest such prefix of [s]. *)
Fixpoint count_digits (s : string) : nat :=
  match s with
  | String c r => if Bytes.is_digit c then S (count_digits r) else O
  | EmptyString => O
  end.

Definition scan_number (s : string) : option nat :=
  let neg := Bytes.has_prefix "-" s in
  let s1 := if neg then Bytes.drop 1 s else s in
  let n0 := if neg then 1%nat else 0%nat in
  let ni := if Bytes.has_prefix "0" s1 then 1%nat else count_digits s1 in
  match ni with
  | O => None
  | _ =>
      let s2 := Bytes.drop ni s1 in
      let nf :=
        if Bytes.has_prefix "." s2 then
          match count_digits (Bytes.drop 1 s2) with
          | O => None
          | k => Some (S k)
          end
        else Some O in
      match nf with
      | None => None
      | Some nf =>
          let s3 := Bytes.drop nf s2 in
          let ne :=
            if Bytes.has_prefix "e" s3 || Bytes.has_prefix "E" s3 then
              let s4 := Bytes.drop 1 s3 in
              let sg := if Bytes.has_prefix "+" s4 || Bytes.has_prefix "-" s4
                        then 1%nat else 0%nat in
              match count_digits (Bytes.drop sg s4) with
              | O => None
              | k => Some (S (sg + k))
              end
            else Some O in
          match ne with
          | None => None
          | Some ne => Some (n0 + ni + nf + ne)%nat
          end
      end
  end.

Definition isValidNumber (s : string) : bool :=
  match scan_number s with
  | Some n => (n =? String.length s)%nat
  | None => false
  end.

(** A float as the encoder writes it: [%f], or [%e] below [1e-6] and from
    [1e21] on, with a one-digit negative exponent written without its
    leading zero. *)
Definition clean_exponent (s : string) : string :=
  let n := String.length s in
  if (4 <=? n)%nat && String.eqb (String.substring (n - 4) 3 s) "e-0"
  then String.substring 0 (n - 2) s +:+ String.substring (n - 1) 1 s
  else s.

Definition float_limit (bits : Z) (lit : string) : spec_float :=
  match strconv.ParseFloat lit bits with
  | Ok f => f
  | _ => S754_nan
  end.

Definition encode_float (f : spec_float) (bits : Z) : result string :=
  match f with
  | S754_nan => Err "json: unsupported value: NaN"
  | S754_infinity s => Err ("json: unsupported value: " +:+ (if s then "-Inf" else "+Inf"))
  | S754_zero _ => Ok (strconv.FormatFloat_f f bits)
  | S754_finite _ _ _ =>
      let fi := strconv.info_of bits in
      let a := SFabs f in
      if SFltb a (float_limit bits "1e-6") || SFleb (float_limit bits "1e21") a
      then Ok (clean_exponent (strconv.FormatFloat_e f bits))
      else Ok (strconv.FormatFloat_f f bits)
  end.

Definition array (items : list string) : string := "[" +:+ Bytes.join "," items +:+ "]".
Definition object (items : list string) : string := "{" +:+ Bytes.join "," items +:+ "}".

Fixpoint insert_member {A : Type} (kv : string * A) (l : list (string * A)) : list (string * A) :=
  match l with
  | [] => [kv]
  | x :: r => if String.leb (fst kv) (fst x) then kv :: l else x :: insert_member kv r
  end.

(** Map keys are written in sorted order. *)
Definition sort_members {A : Type} (l : list (string * A)) : list (string * A) :=
  foldr insert_member [] l.

Fixpoint sequence {A : Type} (l : list (result A)) : result (list A) :=
  match l with
  | [] => Ok []
  | r :: rest => a ← r; t ← sequence rest; Ok (a :: t)
  end.

Definition member (kt : string * string) : string :=
  quote (fst kt) +:+ ":" +:+ snd kt.

Fixpoint encode (v : any) : result string :=
  match v with
  | Nil => Ok "null"
  | Str s => Ok (quote s)
  | Bool b => Ok (strconv.FormatBool b)
  | Number lit =>
      let lit := if String.eqb lit "" then "0" else lit in
      if isValidNumber lit then Ok lit
      else Err ("json: invalid number literal " +:+ quote lit)
  | Int _ n => Ok (strconv.FormatInt n)
  | Float64 f => encode_float f 64
  | Float32 f => encode_float f 32
  | Strings l => Ok (array (map quote l))
  | Ints l => Ok (array (map strconv.FormatInt l))
  | Bools l => Ok (array (map strconv.FormatBool l))
  | Float64s l => items ← sequence (map (fun f => encode_float f 64) l); Ok (array items)
  | Float32s l => items ← sequence (map (fun f => encode_float f 32) l); Ok (array items)
  | Slice l => items ← sequence (map encode l); Ok (array items)
  | Map m =>
      items ← sequence (map (fun '(k, x) => t ← encode x; Ok (k, t)) m);
      Ok (object (map member (sort_members items)))
  | Struct fields =>
      items ← sequence (map (fun '(k, x) => t ← encode x; Ok (k, t)) fields);
      Ok (object (map member items))
  | Unsupported t => Err ("json: unsupported type: " +:+ t)
  end.

(** [json.Marshal]. *)
Definition Marshal (v : any) : result string := encode v.

(** *** Reading a document *)

Inductive doc : Type :=
| DNull
| DBool (b : bool)
| DNum (lit : string)
| DStr (s : string)
| DArr (items : list doc)
| DObj (members : list (string * doc)).

Definition is_space (c : ascii) : bool :=
  let n := Bytes.byte_of c in (n =? 32) || (n =? 9) || (n =? 10) || (n =? 13).

Fixpoint skip_ws (s : string) : string :=
  match s with
  | String c r => if is_space c then skip_ws r else s
  | EmptyString => s
  end.

Definition syntax_error (s : string) : error :=
  match s with
  | EmptyString => "unexpected end of JSON input"
  | String c _ => "invalid character '" +:+ String c "" +:+ "' in JSON text"
  end.

(** UTF-8 of a code point. *)
Definition utf8 (cp : Z) : string :=
  if cp <? 128 then String (Bytes.of_byte cp) ""
  else if cp <? 2048 then
    String (Bytes.of_byte (192 + cp / 64)) (String (Bytes.of_byte (128 + cp mod 64)) "")
  else if cp <? 65536 then
    String (Bytes.of_byte (224 + cp / 4096))
      (String (Bytes.of_byte (128 + cp / 64 mod 64))
        (String (Bytes.of_byte (128 + cp mod 64)) ""))
  else
    String (Bytes.of_byte (240 + cp / 262144))
      (String (Bytes.of_byte (128 + cp / 4096 mod 64))
        (String (Bytes.of_byte (128 + cp / 64 mod 64))
          (String (Bytes.of_byte (128 + cp mod 64)) ""))).

Definition read_hex4 (s : string) : option (Z * string) :=
  match s with
  | String a (String b (String c (String d r))) =>
      match Bytes.unhex a, Bytes.unhex b, Bytes.unhex c, Bytes.unhex d with
      | Some x, Some y, Some z, Some w => Some (4096 * x + 256 * y + 16 * z + w, r)
      | _, _, _, _ => None
      end
  | _ => None
  end.

Definition simple_escape (c : ascii) : option ascii :=
  let n := Bytes.byte_of c in
  if (n =? 34) || (n =? 92) || (n =? 47) then Some c
  else if n =? 98 then Some (Bytes.of_byte 8)
  else if n =? 102 then Some (Bytes.of_byte 12)
  else if n =? 110 then Some (Bytes.of_byte 10)
  else if n =? 114 then Some (Bytes.of_byte 13)
  else if n =? 116 then Some (Bytes.of_byte 9)
  else None.

(** The rest of a string literal after its opening quote: the decoded text
    and what follows the closing quote.  A lone surrogate escape becomes
    U+FFFD. *)
Fixpoint read_string (fuel : nat) (s : string) : result (string * string) :=
  match fuel with
  | O => Err (syntax_error "")
  | S k =>
      match s with
      | EmptyString => Err (syntax_error "")
      | String c r =>
          let n := Bytes.byte_of c in
          if n =? 34 then Ok ("", r)
          else if n <? 32 then Err (syntax_error s)
          else if n =? 92 then
            match r with
            | EmptyString => Err (syntax_error "")
            | String e r' =>
                if Ascii.eqb e "u" then
                  match read_hex4 r' with
                  | None => Err (syntax_error r')
                  | Some (cp, r2) =>
                      if (55296 <=? cp) && (cp <? 56320) then
                        match r2 with
                        | String b1 (String b2 r3) =>
                            match (if (Bytes.byte_of b1 =? 92) && Ascii.eqb b2 "u"
                                   then read_hex4 r3 else None) with
                            | Some (lo, r4) =>
                                if (56320 <=? lo) && (lo <? 57344) then
                                  '(t, rest) ← read_string k r4;
                                  Ok (utf8 (65536 + (cp - 55296) * 1024 + (lo - 56320)) +:+ t, rest)
                                else '(t, rest) ← read_string k r2; Ok (utf8 65533 +:+ t, rest)
                            | None => '(t, rest) ← read_string k r2; Ok (utf8 65533 +:+ t, rest)
                            end
                        | _ => '(t, rest) ← read_string k r2; Ok (utf8 65533 +:+ t, rest)
                        end
                      else if (56320 <=? cp) && (cp <? 57344) then
                        '(t, rest) ← read_string k r2; Ok (utf8 65533 +:+ t, rest)
                      else '(t, rest) ← read_string k r2; Ok (utf8 cp +:+ t, rest)
                  end
                else
                  match simple_escape e with
                  | Some x => '(t, rest) ← read_string k r'; Ok (String x t, rest)
                  | None => Err (syntax_error r)
                  end
            end
          else '(t, rest) ← read_string k r; Ok (String c t, rest)
      end
  end.

(** One value, then the elements of an array after its bracket, then the
    members of an object after its brace. *)
Fixpoint read_value (fuel : nat) (s : string) : result (doc * string) :=
  match fuel with
  | O => Err (syntax_error "")
  | S k =>
      let s := skip_ws s in
      match s with
      | EmptyString => Err (syntax_error s)
      | String c r =>
          if Ascii.eqb c "{" then
            match skip_ws r with
            | String "}" r' => Ok (DObj [], r')
            | _ => '(ms, rest) ← read_members k r; Ok (DObj ms, rest)
            end
          else if Ascii.eqb c "[" then
            match skip_ws r with
            | String "]" r' => Ok (DArr [], r')
            | _ => '(xs, rest) ← read_elements k r; Ok (DArr xs, rest)
            end
          else if Bytes.byte_of c =? 34 then
            '(t, rest) ← read_string (String.length r + 1) r; Ok (DStr t, rest)
          else if Bytes.has_prefix "true" s then Ok (DBool true, Bytes.drop 4 s)
          else if Bytes.has_prefix "false" s then Ok (DBool false, Bytes.drop 5 s)
          else if Bytes.has_prefix "null" s then Ok (DNull, Bytes.drop 4 s)
          else
            match scan_number s with
            | Some n => Ok (DNum (String.substring 0 n s), Bytes.drop n s)
            | None => Err (syntax_error s)
            end
      end
  end
with read_elements (fuel : nat) (s : string) : result (list doc * string) :=
  match fuel with
  | O => Err (syntax_error "")
  | S k =>
      '(x, rest) ← read_value k s;
      match skip_ws rest with
      | String "," r => '(xs, rest') ← read_elements k r; Ok (x :: xs, rest')
      | String "]" r => Ok ([x], r)
      | other => Err (syntax_error other)
      end
  end
with read_members (fuel : nat) (s : string) : result (list (string * doc) * string) :=
  match fuel with
  | O => Err (syntax_error "")
  | S k =>
      match skip_ws s with
      | String q r =>
          if Bytes.byte_of q =? 34 then
            '(key, rest) ← read_string (String.length r + 1) r;
            match skip_ws rest with
            | String ":" r1 =>
                '(x, rest1) ← read_value k r1;
                match skip_ws rest1 with
                | String "," r2 => '(ms, rest2) ← read_members k r2; Ok ((key, x) :: ms, rest2)
                | String "}" r2 => Ok ([(key, x)], r2)
                | other => Err (syntax_error other)
                end
            | other => Err (syntax_error other)
            end
          else Err (syntax_error (String q r))
      | EmptyString => Err (syntax_error "")
      end
  end.

(** [checkValid] and the scan of the whole input: one value and nothing
    but white space after it. *)
Definition read_document (data : string) : result doc :=
  '(d, rest) ← read_value (2 * String.length data + 2) data;
  match skip_ws rest with
  | EmptyString => Ok d
  | other => Err (syntax_error other)
  end.

(** *** Storing a document into a Go value

    The decoder keeps the first type error it meets and goes on, as
    [decodeState.saveError] does: a store returns the new value and that
    error, if any. *)

Definition first_error (a b : option error) : option error :=
  match a with
  | Some _ => a
  | None => b
  end.

Definition type_error (what : string) (ty : string) : error :=
  "json: cannot unmarshal " +:+ what +:+ " into Go value of type " +:+ ty.

(** [convertNumber]: a number stored into an [interface{}] is a [float64]. *)
Definition convertNumber (lit : string) : any * option error :=
  match strconv.ParseFloat lit 64 with
  | Ok f => (Float64 f, None)
  | _ => (Nil, Some (type_error ("number " +:+ lit) "float64"))
  end.

(** [valueInterface]: the value an [interface{}] receives. *)
Fixpoint decode_any (d : doc) : any * option error :=
  match d with
  | DNull => (Nil, None)
  | DBool b => (Bool b, None)
  | DNum lit => convertNumber lit
  | DStr s => (Str s, None)
  | DArr items =>
      let r := map decode_any items in
      (Slice (map fst r), foldr first_error None (map snd r))
  | DObj members =>
      let r := map (fun '(k, x) => (k, decode_any x)) members in
      (Map (foldl (fun m kv => assoc_set (fst kv) (fst (snd kv)) m) [] r),
       foldr first_error None (map (fun kv => snd (snd kv)) r))
  end.

(** An integer literal for an integer variable: [ParseInt] or [ParseUint],
    then the range of the type. *)
Definition read_integer (lit : string) : option Z :=
  let '(neg, r) := strconv.read_sign lit in
  let '(n, count, rest) := strconv.read_digits r 0 0 in
  if (0 <? count) && String.eqb rest "" then Some (if neg then - n else n) else None.

Definition describe (d : doc) : string :=
  match d with
  | DNull => "null"
  | DBool _ => "bool"
  | DNum lit => "number " +:+ lit
  | DStr _ => "string"
  | DArr _ => "array"
  | DObj _ => "object"
  end.

Definition fold_eqb (a b : string) : bool :=
  String.eqb (Bytes.map_string Bytes.to_lower a) (Bytes.map_string Bytes.to_lower b).

(** The field a member name selects: the exact name, else the first one
    equal up to case. *)
Definition find_field {A : Type} (key : string) (fields : list (string * A)) : option string :=
  match List.find (fun kv => String.eqb key (fst kv)) fields with
  | Some kv => Some (fst kv)
  | None => option_map fst (List.find (fun kv => fold_eqb key (fst kv)) fields)
  end.

(** A scalar stored into a variable of the type of [dest]. *)
Definition decode_scalar (d : doc) (dest : any) : any * option error :=
  let mismatch := (dest, Some (type_error (describe d) (type_name dest))) in
  match d, dest with
  | DNull, (Nil | Strings _ | Ints _ | Bools _ | Float64s _ | Float32s _ | Slice _ | Map _) =>
      (Nil, None)
  | DNull, _ => (dest, None)
  | _, Nil => decode_any d
  | DBool b, Bool _ => (Bool b, None)
  | DStr s, Str _ => (Str s, None)
  | DStr s, Number _ =>
      if isValidNumber s then (Number s, None)
      else (dest, Some ("json: invalid number literal, trying to unmarshal "
                        +:+ quote s +:+ " into Number"))
  | DNum lit, Number _ => (Number lit, None)
  | DNum lit, Int t _ =>
      match read_integer lit with
      | Some n => if in_range t n then (Int t n, None) else mismatch
      | None => mismatch
      end
  | DNum lit, Float64 _ =>
      match strconv.ParseFloat lit 64 with
      | Ok f => (Float64 f, None)
      | _ => mismatch
      end
  | DNum lit, Float32 _ =>
      match strconv.ParseFloat lit 32 with
      | Ok f => (Float32 f, None)
      | _ => mismatch
      end
  | _, _ => mismatch
  end.

(** The elements of an array stored into a typed slice: each element
    starts from the zero value [zero] of the element type. *)
Definition decode_elements {A : Type} (zero : any) (get : any -> option A) (z : A)
    (items : list doc) : list A * option error :=
  let r := map (fun x => decode_scalar x zero) items in
  (map (fun ve => default z (get (fst ve))) r, foldr first_error None (map snd r)).

(** [decodeState.value] into a variable that holds [dest]; the constructor
    of [dest] stands for the static type of the variable, [Nil] for
    [interface{}]. *)
Fixpoint decode_into (d : doc) (dest : any) {struct d} : any * option error :=
  match d, dest with
  | DArr items, Slice _ =>
      let r := map decode_any items in
      (Slice (map fst r), foldr first_error None (map snd r))
  | DArr items, Strings _ =>
      let '(l, e) := decode_elements (Str "") (fun v => match v with Str s => Some s | _ => None end)
                       "" items in (Strings l, e)
  | DArr items, Ints _ =>
      let '(l, e) := decode_elements (Int TInt 0)
                       (fun v => match v with Int _ n => Some n | _ => None end) 0 items in
      (Ints l, e)
  | DArr items, Bools _ =>
      let '(l, e) := decode_elements (Bool false)
                       (fun v => match v with Bool b => Some b | _ => None end) false items in
      (Bools l, e)
  | DArr items, Float64s _ =>
      let '(l, e) := decode_elements (Float64 (S754_zero false))
                       (fun v => match v with Float64 f => Some f | _ => None end)
                       (S754_zero false) items in
      (Float64s l, e)
  | DArr items, Float32s _ =>
      let '(l, e) := decode_elements (Float32 (S754_zero false))
                       (fun v => match v with Float32 f => Some f | _ => None end)
                       (S754_zero false) items in
      (Float32s l, e)
  | DObj members, Map m =>
      let r := map (fun '(k, x) => (k, decode_any x)) members in
      (Map (foldl (fun m kv => assoc_set (fst kv) (fst (snd kv)) m) m r),
       foldr first_error None (map (fun kv => snd (snd kv)) r))
  | DObj members, Struct fields =>
      (fix store (ms : list (string * doc)) (fs : list (string * any)) (err : option error)
           : any * option error :=
         match ms with
         | [] => (Struct fs, err)
         | (k, x) :: rest =>
             match find_field k fs with
             | Some name =>
                 let '(v, e) := decode_into x (default Nil (assoc_get name fs)) in
                 store rest (assoc_set name v fs) (first_error err e)
             | None => store rest fs err
             end
         end) members fields None
  | _, _ => decode_scalar d dest
  end.

(** [json.Unmarshal(data, &v)] where the variable [v] holds [dest]: the
    text is checked first, so a syntax error leaves [v] as it was. *)
Definition Unmarshal (data : string) (dest : any) : any * option error :=
  match read_document data with
  | Ok d => decode_into d dest
  | Err e => (dest, Some e)
  | Panic msg => (dest, Some msg)
  end.

End json.

(** ** String slices and their backing arrays

    A [[]string] is a pointer to a backing array with a length and a
    capacity.  [append] writes in place while the capacity lasts, so two
    slice values that point to one array see each other's writes. *)

Module mem.

Record slice := { ptr : nat; len : nat; cap : nat }.

Record heap := { arrays : gmap nat (list string); next : nat }.

Definition empty_heap : heap := {| arrays := ∅; next := 1 |}.

(** The nil slice. *)
Definition nil_slice : slice := {| ptr := 0; len := 0; cap := 0 |}.

(** The elements a slice shows. *)
Definition read (h : heap) (s : slice) : list string :=
  take (len s) (default [] (arrays h !! ptr s)).

Definition alloc (h : heap) (cells : list string) : heap * nat :=
  ({| arrays := <[next h := cells]> (arrays h); next := S (next h) |}, next h).

(** The slice literal [[]string{x}]. *)
Definition literal (h : heap) (x : string) : heap * slice :=
  let '(h', p) := alloc h [x] in (h', {| ptr := p; len := 1; cap := 1 |}).

(** [nextslicecap] of the runtime for one more element: twice the old
    capacity below 256 elements, a quarter more (plus 192) from there on.
    (The allocator's rounding to a size class is the identity on the
    capacities it yields for strings below 512 elements.) *)
Definition growcap (oldCap newLen : nat) : nat :=
  if (oldCap + oldCap <? newLen)%nat then newLen
  else if (oldCap <? 256)%nat then (oldCap + oldCap)%nat
  else (oldCap + (oldCap + 768) / 4)%nat.

(** [append(s, x)]. *)
Definition append (h : heap) (s : slice) (x : string) : heap * slice :=
  if (len s <? cap s)%nat then
    ({| arrays := alter (fun cells => <[len s := x]> cells) (ptr s) (arrays h);
        next := next h |},
     {| ptr := ptr s; len := S (len s); cap := cap s |})
  else
    let c := growcap (cap s) (S (len s)) in
    let '(h', p) := alloc h (read h s ++ x :: replicate (c - S (len s)) "") in
    (h', {| ptr := p; len := S (len s); cap := c |}).

End mem.

(** ** net/http *)

Module http.

(** Token bytes of a header field name or a method. *)
Definition validHeaderFieldByte (c : ascii) : bool :=
  Bytes.is_alpha c || Bytes.is_digit c || url.one_of "!#$%&'*+-.^_`|~" c.

Fixpoint canonical_from (upper : bool) (s : string) : string :=
  match s with
  | EmptyString => EmptyString
  | String c r =>
      let c' := if upper then Bytes.to_upper c else Bytes.to_lower c in
      String c' (canonical_from (Ascii.eqb c' "-") r)
  end.

(** [textproto.CanonicalMIMEHeaderKey]: [accept-encoding] becomes
    [Accept-Encoding]; a key with a byte outside the token set is kept. *)
Definition CanonicalHeaderKey (s : string) : string :=
  if Bytes.forallb_string validHeaderFieldByte s then canonical_from true s else s.

(** A header whose value slices live in the store: the [http.Header] a
    builder holds. *)
Abbreviation Header := (gmap string mem.slice).

Definition Header_Add (h : mem.heap) (hd : Header) (key value : string) : mem.heap * Header :=
  let k := CanonicalHeaderKey key in
  let '(h', s) := mem.append h (default mem.nil_slice (hd !! k)) value in
  (h', <[k := s]> hd).

Definition Header_Set (h : mem.heap) (hd : Header) (key value : string) : mem.heap * Header :=
  let '(h', s) := mem.literal h value in
  (h', <[CanonicalHeaderKey key := s]> hd).

(** The values of a key, as [Header.Values] shows them. *)
Definition Header_Values (h : mem.heap) (hd : Header) (key : string) : list string :=
  mem.read h (default mem.nil_slice (hd !! CanonicalHeaderKey key)).

(** The whole header as data. *)
Definition Header_view (h : mem.heap) (hd : Header) : gmap string (list string) :=
  mem.read h <$> hd.

Record Request := {
  Method : string;
  URL : url.URL;
  ReqHeader : gmap string (list string);  (* owned by the request *)
  ReqBody : option string;                (* [None]: nil body; [Some s]: a reader over [s] *)
  ContentLength : Z;
  ReqHost : string
}.

Definition validMethod (m : string) : bool :=
  negb (String.eqb m "") && Bytes.forallb_string validHeaderFieldByte m.

Definition removeEmptyPort (host : string) : string :=
  match Bytes.before_last ":" host with
  | Some h => if String.eqb (h +:+ ":") host then h else host
  | None => host
  end.

(** [http.NewRequest(method, url, body)], the body a [*strings.Reader]. *)
Definition NewRequest (method urlStr : string) (body : option string) : result Request :=
  let method := if String.eqb method "" then "GET" else method in
  if negb (validMethod method) then Err ("net/http: invalid method " +:+ method)
  else
    u ← url.Parse urlStr;
    let host := removeEmptyPort (url.Host u) in
    Ok {| Method := method; URL := url.with_Host u host; ReqHeader := ∅;
          ReqBody := body;
          ContentLength := match body with
                           | Some s => Z.of_nat (String.length s)
                           | None => 0
                           end;
          ReqHost := host |}.

(** [req.Header.Add(key, value)]. *)
Definition Request_AddHeader (req : Request) (key value : string) : Request :=
  {| Method := Method req; URL := URL req;
     ReqHeader := url.Values_Add (ReqHeader req) (CanonicalHeaderKey key) value;
     ReqBody := ReqBody req; ContentLength := ContentLength req; ReqHost := ReqHost req |}.

(** What an executor hands back: the status and what [ioutil.ReadAll] gets
    from the body. *)
Record Response := {
  StatusCode : Z;
  Body : result string
}.

End http.

(** ** gorest.go *)

Module gorest.

(** A reference to an executor ([Doer]); what it does with a request is
    given by the environment of [Receive]. *)
Inductive Doer :=
| DefaultClient            (* http.DefaultClient *)
| Custom (id : nat).

Record RestClient := {
  httpClient : Doer;
  method : string;
  rawURL : string;
  header : http.Header;
  data : list any;
  serialize : option (list any -> result string)   (* [None]: the nil func *)
}.

(** [toMap]: every source goes through [json.Marshal] and back through
    [json.Unmarshal] into a [map[string]interface{}]; its entries are
    assigned into the accumulating map. *)
Definition assign_all (val : any) (jsonValues : gmap string any) : gmap string any :=
  match val with
  | Map m => foldl (fun acc kv => <[fst kv := snd kv]> acc) jsonValues m
  | _ => jsonValues
  end.

Fixpoint toMap_loop (jsonValues : gmap string any) (params : list any)
    : result (gmap string any) :=
  match params with
  | [] => Ok jsonValues
  | data :: rest =>
      content ← json.Marshal data;
      let '(val, err) := json.Unmarshal content (Map []) in
      match err with
      | Some e => Err e
      | None => toMap_loop (assign_all val jsonValues) rest
      end
  end.

Definition toMap (params : list any) : result (gmap string any) :=
  toMap_loop ∅ params.

Definition add_each {A : Type} (k : string) (f : A -> string) (l : list A)
    (v : url.Values) : url.Values :=
  foldl (fun acc element => url.Values_Add acc k (f element)) v l.

(** [element.(T)] for every element of a [[]interface{}]: the first element
    of another type panics. *)
Fixpoint assert_each (k : string) (get : any -> option string) (want : string)
    (l : list any) (v : url.Values) : result url.Values :=
  match l with
  | [] => Ok v
  | element :: rest =>
      match get element with
      | Some text => assert_each k get want rest (url.Values_Add v k text)
      | None => Panic ("interface conversion: interface {} is " +:+ type_name element
                       +:+ ", not " +:+ want)
      end
  end.

(** One turn of the loop of [changeMapToURLValues]: the type switch. *)
Definition changeMapToURLValues_step (k : string) (v : any) (newUrlValues : url.Values)
    : result url.Values :=
  match v with
  | Str val => Ok (url.Values_Add newUrlValues k val)
  | Bool val => Ok (url.Values_Add newUrlValues k (strconv.FormatBool val))
  | Number val => Ok (url.Values_Add newUrlValues k val)
  | Int TInt val => Ok (url.Values_Add newUrlValues k (strconv.FormatInt val))
  | Float64 val => Ok (url.Values_Add newUrlValues k (strconv.FormatFloat_f val 64))
  | Float32 val =>
      Ok (url.Values_Add newUrlValues k
            (strconv.FormatFloat_f (strconv.float64_of_float32 val) 64))
  | Strings val => Ok (add_each k id val newUrlValues)
  | Ints val => Ok (add_each k strconv.FormatInt val newUrlValues)
  | Bools val => Ok (add_each k strconv.FormatBool val newUrlValues)
  | Float64s val => Ok (add_each k (fun e => strconv.FormatFloat_f e 64) val newUrlValues)
  | Float32s val =>
      Ok (add_each k (fun e => strconv.FormatFloat_f (strconv.float64_of_float32 e) 64)
            val newUrlValues)
  | Slice val =>
      match val with
      | [] => Ok newUrlValues
      | Str _ :: _ =>
          assert_each k (fun e => match e with Str x => Some x | _ => None end)
            "string" val newUrlValues
      | Bool _ :: _ =>
          assert_each k (fun e => match e with
                                  | Bool x => Some (strconv.FormatBool x)
                                  | _ => None
                                  end)
            "bool" val newUrlValues
      | Number _ :: _ =>
          assert_each k (fun e => match e with Number x => Some x | _ => None end)
            "json.Number" val newUrlValues
      | _ => Ok newUrlValues
      end
  | _ => Ok newUrlValues
  end.

Definition changeMapToURLValues (data : gmap string any) : result url.Values :=
  map_fold (fun k v acc => newUrlValues ← acc; changeMapToURLValues_step k v newUrlValues)
           (Ok ∅) data.

Definition formSting (params : list any) : result string :=
  values ← toMap params;
  encoded ← changeMapToURLValues values;
  Ok (url.Values_Encode encoded).

Definition jsonSting (params : list any) : result string :=
  values ← toMap params;
  json.Marshal (Map (map_to_list values)).

(** [New()]. *)
Definition New : RestClient :=
  {| httpClient := DefaultClient; method := "GET"; rawURL := ""; header := ∅;
     data := []; serialize := Some formSting |}.

(** The method [(s *RestClient) New()]: the header map is rebuilt entry by
    entry, each entry keeping the slice value of the original; the sources
    are copied into a new list; [serialize] is not set. *)
Definition RestClient_New (s : RestClient) : RestClient :=
  {| httpClient := httpClient s; method := method s; rawURL := rawURL s;
     header := map_fold (fun k v headerCopy => <[k := v]> headerCopy) ∅ (header s);
     data := [] ++ data s;
     serialize := None |}.

Definition set_serialize (s : RestClient) (f : list any -> result string) : RestClient :=
  {| httpClient := httpClient s; method := method s; rawURL := rawURL s;
     header := header s; data := data s; serialize := Some f |}.

Definition JSON (s : RestClient) : RestClient := set_serialize s jsonSting.
Definition FORM (s : RestClient) : RestClient := set_serialize s formSting.

(** [Doer(doer)], [None] a nil doer. *)
Definition Doer_ (s : RestClient) (doer : option Doer) : RestClient :=
  {| httpClient := default DefaultClient doer; method := method s; rawURL := rawURL s;
     header := header s; data := data s; serialize := serialize s |}.

Definition Client (s : RestClient) (httpClient : option Doer) : RestClient :=
  match httpClient with
  | None => Doer_ s (Some DefaultClient)
  | Some c => Doer_ s (Some c)
  end.

Definition set_method (s : RestClient) (m : string) : RestClient :=
  {| httpClient := httpClient s; method := m; rawURL := rawURL s;
     header := header s; data := data s; serialize := serialize s |}.

Definition set_rawURL (s : RestClient) (u : string) : RestClient :=
  {| httpClient := httpClient s; method := method s; rawURL := u;
     header := header s; data := data s; serialize := serialize s |}.

Definition set_header (s : RestClient) (hd : http.Header) : RestClient :=
  {| httpClient := httpClient s; method := method s; rawURL := rawURL s;
     header := hd; data := data s; serialize := serialize s |}.

Definition set_data (s : RestClient) (d : list any) : RestClient :=
  {| httpClient := httpClient s; method := method s; rawURL := rawURL s;
     header := header s; data := d; serialize := serialize s |}.

Definition Base (s : RestClient) (rawURL : string) : RestClient := set_rawURL s rawURL.

Definition Path (s : RestClient) (path : string) : RestClient :=
  match url.Parse (rawURL s), url.Parse path with
  | Ok baseURL, Ok pathURL =>
      set_rawURL s (url.String_ (url.ResolveReference baseURL pathURL))
  | _, _ => s
  end.

Definition Head (s : RestClient) (pathURL : string) := Path (set_method s "HEAD") pathURL.
Definition Get (s : RestClient) (pathURL : string) := Path (set_method s "GET") pathURL.
Definition Post (s : RestClient) (pathURL : string) := Path (set_method s "POST") pathURL.
Definition Put (s : RestClient) (pathURL : string) := Path (set_method s "PUT") pathURL.
Definition Patch (s : RestClient) (pathURL : string) := Path (set_method s "PATCH") pathURL.
Definition Delete (s : RestClient) (pathURL : string) := Path (set_method s "DELETE") pathURL.

Definition Add (h : mem.heap) (s : RestClient) (key value : string) : mem.heap * RestClient :=
  let '(h', hd) := http.Header_Add h (header s) key value in (h', set_header s hd).

Definition Set_ (h : mem.heap) (s : RestClient) (key value : string) : mem.heap * RestClient :=
  let '(h', hd) := http.Header_Set h (header s) key value in (h', set_header s hd).

Definition basicAuth (username password : string) : string :=
  base64.EncodeToString (username +:+ ":" +:+ password).

Definition SetBasicAuth (h : mem.heap) (s : RestClient) (username password : string)
    : mem.heap * RestClient :=
  Set_ h s "Authorization" ("Basic " +:+ basicAuth username password).

(** [ParamStruct(data)], [None] a nil interface. *)
Definition ParamStruct (s : RestClient) (d : option any) : RestClient :=
  match d with
  | Some x => set_data s (data s ++ [x])
  | None => s
  end.

Definition Param (s : RestClient) (key : string) (value : any) : RestClient :=
  set_data s (data s ++ [Map [(key, value)]]).

Definition addHeaders (h : mem.heap) (req : http.Request) (hd : http.Header) : http.Request :=
  map_fold (fun key values req =>
              foldl (fun r value => http.Request_AddHeader r key value) req (mem.read h values))
           req hd.

(** The call [s.serialize(s.data...)]. *)
Definition call_serialize (s : RestClient) : result string :=
  match serialize s with
  | Some f => f (data s)
  | None => Panic nil_dereference
  end.

Definition body_methods : list string := ["HEAD"; "POST"; "PUT"; "PATCH"; "DELETE"].

Definition Request (h : mem.heap) (s : RestClient) : result http.Request :=
  reqURL ← url.Parse (rawURL s);
  req ← (if String.eqb (method s) "GET" then
           str ← call_serialize s;
           http.NewRequest (method s) (url.String_ (url.with_RawQuery reqURL str)) None
         else if bool_decide (method s ∈ body_methods) then
           str ← call_serialize s;
           http.NewRequest (method s) (url.String_ reqURL) (Some str)
         else Err ("unknown method: [" +:+ method s +:+ "]"));
  Ok (addHeaders h req (header s)).

(** The outcome of [Receive]: what it returns, what the destination and the
    status variable hold afterwards. *)
Record received := {
  returned : result unit;
  destination : option any;
  status : option Z
}.

(** [Receive(value, statusCode...)].  [exec] is what each executor answers;
    [value] is [None] for a nil interface and [Some v] for a pointer to a
    variable that holds [v]; each element of [statusCode] is [None] for a nil
    pointer and [Some old] for a pointer to an [int] that holds [old]. *)
Definition Receive (exec : Doer -> http.Request -> result http.Response)
    (h : mem.heap) (s : RestClient) (value : option any) (statusCode : list (option Z))
    : received :=
  let status0 := match statusCode with Some old :: _ => Some old | _ => None end in
  match Request h s with
  | Ok req =>
      match exec (httpClient s) req with
      | Ok resp =>
          match statusCode with
          | None :: _ =>
              {| returned := Panic nil_dereference; destination := value; status := None |}
          | _ =>
              let status1 := match statusCode with
                             | _ :: _ => Some (http.StatusCode resp)
                             | [] => None
                             end in
              match http.Body resp with
              | Ok body =>
                  if negb (http.StatusCode resp =? 200) then
                    {| returned := Err body; destination := value; status := status1 |}
                  else
                    match value with
                    | Some v =>
                        let '(v', err) := json.Unmarshal body v in
                        match err with
                        | Some e =>
                            {| returned := Err ("parse message body err: " +:+ e
                                                +:+ ", message: " +:+ body);
                               destination := Some v'; status := status1 |}
                        | None =>
                            {| returned := Ok tt; destination := Some v'; status := status1 |}
                        end
                    | None => {| returned := Ok tt; destination := value; status := status1 |}
                    end
              | Err e => {| returned := Err e; destination := value; status := status1 |}
              | Panic msg => {| returned := Panic msg; destination := value; status := status1 |}
              end
          end
      | Err e => {| returned := Err e; destination := value; status := status0 |}
      | Panic msg => {| returned := Panic msg; destination := value; status := status0 |}
      end
  | Err e => {| returned := Err e; destination := value; status := status0 |}
  | Panic msg => {| returned := Panic msg; destination := value; status := status0 |}
  end.

(** *** A chain of configuration calls *)

Inductive call :=
| CallJSON | CallFORM
| CallClient (c : option Doer) | CallDoer (d : option Doer)
| CallHead (p : string) | CallGet (p : string) | CallPost (p : string)
| CallPut (p : string) | CallPatch (p : string) | CallDelete (p : string)
| CallAdd (k v : string) | CallSet (k v : string) | CallSetBasicAuth (u p : string)
| CallBase (u : string) | CallPath (p : string)
| CallParamStruct (d : option any) | CallParam (k : string) (v : any).

Definition apply (st : mem.heap * RestClient) (c : call) : mem.heap * RestClient :=
  let '(h, s) := st in
  match c with
  | CallJSON => (h, JSON s)
  | CallFORM => (h, FORM s)
  | CallClient c => (h, Client s c)
  | CallDoer d => (h, Doer_ s d)
  | CallHead p => (h, Head s p)
  | CallGet p => (h, Get s p)
  | CallPost p => (h, Post s p)
  | CallPut p => (h, Put s p)
  | CallPatch p => (h, Patch s p)
  | CallDelete p => (h, Delete s p)
  | CallAdd k v => Add h s k v
  | CallSet k v => Set_ h s k v
  | CallSetBasicAuth u p => SetBasicAuth h s u p
  | CallBase u => (h, Base s u)
  | CallPath p => (h, Path s p)
  | CallParamStruct d => (h, ParamStruct s d)
  | CallParam k v => (h, Param s k v)
  end.

Definition chain (st : mem.heap * RestClient) (cs : list call) : mem.heap * RestClient :=
  foldl apply st cs.

End gorest.

(** ** The earlier variant of the file

    The second source file is an earlier state of [gorest.go]: the same
    builder with query structs and a body provider in place of the parameter
    sources, and a [Receive] that takes every 2XX status as a success.
    [query.Values] of go-querystring is a parameter; a [BodyProvider] is given
    by what its two methods return. *)

Module gorest0.

Record BodyProvider := {
  ContentType : string;
  Body : result (option string)
}.

Record RestClient := {
  httpClient : gorest.Doer;
  method : string;
  rawURL : string;
  header : http.Header;
  queryStructs : list any;
  bodyProvider : option BodyProvider
}.

Section Requests.

Variable goquery_Values : any -> result url.Values.

(** [addQueryStructs]: the pairs of every query struct are added to those
    of the query of the URL. *)
Fixpoint add_structs (urlValues : url.Values) (queryStructs : list any) : result url.Values :=
  match queryStructs with
  | [] => Ok urlValues
  | queryStruct :: rest =>
      queryValues ← goquery_Values queryStruct;
      add_structs
        (map_fold (fun key values acc => foldl (fun a value => url.Values_Add a key value) acc values)
                  urlValues queryValues)
        rest
  end.

Definition addQueryStructs (reqURL : url.URL) (queryStructs : list any) : result url.URL :=
  match url.ParseQuery (url.RawQuery reqURL) with
  | (_, Some e) => Err e
  | (urlValues, None) =>
      urlValues' ← add_structs urlValues queryStructs;
      Ok (url.with_RawQuery reqURL (url.Values_Encode urlValues'))
  end.

Definition Request (h : mem.heap) (s : RestClient) : result http.Request :=
  reqURL ← url.Parse (rawURL s);
  reqURL' ← addQueryStructs reqURL (queryStructs s);
  body ← match bodyProvider s with
         | Some p => Body p
         | None => Ok None
         end;
  req ← http.NewRequest (method s) (url.String_ reqURL') body;
  Ok (gorest.addHeaders h req (header s)).

(** [Receive(value, result...)].  The call [json.Unmarshal(body, result)]
    is given the slice [result] itself, not a pointer: it stores nothing and
    its error is dropped. *)
Definition Receive (exec : gorest.Doer -> http.Request -> result http.Response)
    (h : mem.heap) (s : RestClient) (value : option any) (result_ : list any)
    : gorest.received :=
  let fail r := {| gorest.returned := r; gorest.destination := value; gorest.status := None |} in
  match Request h s with
  | Ok req =>
      match exec (httpClient s) req with
      | Ok resp =>
          match http.Body resp with
          | Ok body =>
              let code := http.StatusCode resp in
              if (code <? 200) || (299 <? code) then fail (Err body)
              else
                match value with
                | Some v =>
                    let '(v', err) := json.Unmarshal body v in
                    {| gorest.returned :=
                         match err with
                         | Some e => Err ("parse message body err: " +:+ e
                                          +:+ ", message: " +:+ body)
                         | None => Ok tt
                         end;
                       gorest.destination := Some v'; gorest.status := None |}
                | None => fail (Ok tt)
                end
          | Err e => fail (Err e)
          | Panic msg => fail (Panic msg)
          end
      | Err e => fail (Err e)
      | Panic msg => fail (Panic msg)
      end
  | Err e => fail (Err e)
  | Panic msg => fail (Panic msg)
  end.

End Requests.

End gorest0.

(** ** Notions used to state the properties *)

Module Spec.







(** The status pointer, when one is given, is not nil. *)
Definition status_pointer_ok (statusCode : list (option Z)) : Prop :=
  match statusCode with
  | None :: _ => False
  | _ => True
  end.

(** The request URL [NewRequest] derives from the text [urlStr]. *)
Definition request_url (urlStr : string) (u : url.URL) : Prop :=
  exists parsed, url.Parse urlStr = Ok parsed /\
                 u = url.with_Host parsed (http.removeEmptyPort (url.Host parsed)).

(** The texts of the elements of a [[]interface{}], all of one type. *)
Fixpoint all_of (get : any -> option string) (want : string) (l : list any)
    : result (list string) :=
  match l with
  | [] => Ok []
  | element :: rest =>
      match get element with
      | Some text => texts ← all_of get want rest; Ok (text :: texts)
      | None => Panic ("interface conversion: interface {} is " +:+ type_name element
                       +:+ ", not " +:+ want)
      end
  end.

(** The values [changeMapToURLValues] adds under the key of [v]. *)
Definition form_values (v : any) : result (list string) :=
  match v with
  | Str val => Ok [val]
  | Bool val => Ok [strconv.FormatBool val]
  | Number val => Ok [val]
  | Int TInt val => Ok [strconv.FormatInt val]
  | Float64 val => Ok [strconv.FormatFloat_f val 64]
  | Float32 val => Ok [strconv.FormatFloat_f (strconv.float64_of_float32 val) 64]
  | Strings val => Ok val
  | Ints val => Ok (map strconv.FormatInt val)
  | Bools val => Ok (map strconv.FormatBool val)
  | Float64s val => Ok (map (fun e => strconv.FormatFloat_f e 64) val)
  | Float32s val =>
      Ok (map (fun e => strconv.FormatFloat_f (strconv.float64_of_float32 e) 64) val)
  | Slice ((Str _ :: _) as val) =>
      all_of (fun e => match e with Str x => Some x | _ => None end) "string" val
  | Slice ((Bool _ :: _) as val) =>
      all_of (fun e => match e with Bool x => Some (strconv.FormatBool x) | _ => None end)
        "bool" val
  | Slice ((Number _ :: _) as val) =>
      all_of (fun e => match e with Number x => Some x | _ => None end) "json.Number" val
  | _ => Ok []
  end.

(** The values of a key that has any. *)
Definition listed (v : any) : option (list string) :=
  match form_values v with
  | Ok (x :: l) => Some (x :: l)
  | _ => None
  end.

(** Free of the two bytes that end the part of a URL before the query. *)
Definition plain (s : string) : Prop :=
  Bytes.contains_byte "?" s = false /\ Bytes.contains_byte "#" s = false.

(** The bytes of a scheme. *)
Definition scheme_byte (c : ascii) : bool :=
  Bytes.is_alpha c || Bytes.is_digit c || url.one_of "+-." c.

(** The scheme, the opaque part and the userinfo are free of [?] and [#]. *)
Definition clean (u : url.URL) : Prop :=
  plain (url.Scheme u) /\ plain (url.Opaque u)
  /\ (forall ui, url.User u = Some ui -> plain ui).








End Spec.

(** ** Sample builders and values *)

Module Examples.

Import gorest.

(** [New().Base("http://h/p").Param("a", "x")]. *)
Definition get_a_x : RestClient := Param (Base New "http://h/p") "a" (Str "x").

(** [New().Base("http://h/").Param("a", "x").Head("p")]. *)
Definition head_a_x : RestClient := Head (Param (Base New "http://h/") "a" (Str "x")) "p".

(** [New().Base("http://h/p").Param("n", int64(9007199254740993))]. *)
Definition get_big_int : RestClient :=
  Param (Base New "http://h/p") "n" (Int TInt64 9007199254740993).

(** [New().Base("http://h/p").Param(key, list)]. *)
Definition get_list (key : string) (list : any) : RestClient :=
  Param (Base New "http://h/p") key list.

(** [1.5] and [2.5] as [float64]. *)
Definition f1_5 : strconv.float64 := S754_finite false 6755399441055744 (-52).
Definition f2_5 : strconv.float64 := S754_finite false 5629499534213120 (-51).

(** An executor that answers every request with one response. *)
Definition always (code : Z) (body : string) : Doer -> http.Request -> result http.Response :=
  fun _ _ => Ok {| http.StatusCode := code; http.Body := Ok body |}.

Definition q := Bytes.dquote.

(** The response bodies [{"msg":"nope"}], [{"id":5}] and [{"id":]. *)
Definition body_nope : string := "{" +:+ q +:+ "msg" +:+ q +:+ ":" +:+ q +:+ "nope" +:+ q +:+ "}".
Definition body_id5 : string := "{" +:+ q +:+ "id" +:+ q +:+ ":5}".
Definition body_cut : string := "{" +:+ q +:+ "id" +:+ q +:+ ":".

(** A destination [struct { ID int `json:"id"` }] holding zero. *)
Definition dest_id : any := Struct [("id", Int TInt 0)].

(** A parent with three values under one header key, its clone, a value
    added to the clone, then a value added to the parent. *)
Definition parent : mem.heap * RestClient :=
  chain (mem.empty_heap, New) [CallAdd "K" "1"; CallAdd "K" "2"; CallAdd "K" "3"].
Definition child : RestClient := RestClient_New (snd parent).
Definition child_added : mem.heap * RestClient := Add (fst parent) child "K" "c".
Definition parent_added : mem.heap * RestClient := Add (fst child_added) (snd parent) "K" "o".

(** A builder of the earlier variant: [New().Base("http://h/p")]. *)
Definition earlier_get : gorest0.RestClient :=
  {| gorest0.httpClient := DefaultClient; gorest0.method := "GET"; gorest0.rawURL := "http://h/p";
     gorest0.header := ∅; gorest0.queryStructs := []; gorest0.bodyProvider := None |}.

Definition no_values : any -> result url.Values := fun _ => Ok ∅.

Definition response (code : Z) (body : string) : http.Response :=
  {| http.StatusCode := code; http.Body := Ok body |}.

Definition request_get_a_x : http.Request :=
  {| http.Method := "GET";
     http.URL := url.with_RawQuery
                   (url.with_Host
                      {| url.Scheme := "http"; url.Opaque := ""; url.User := None;
                         url.Host := "h"; url.Path := "/p"; url.RawPath := "";
                         url.OmitHost := false; url.ForceQuery := false; url.RawQuery := "";
                         url.Fragment := ""; url.RawFragment := "" |} "h") "a=x";
     http.ReqHeader := ∅; http.ReqBody := None; http.ContentLength := 0;
     http.ReqHost := "h" |}.

(** [Base("http://h/a/").Path("b").Add("accept", "text/plain")
    .Add("Accept", "text/html").SetBasicAuth("Aladdin", "open sesame")
    .Param("q", "go rest").ParamStruct(struct{Tags []string `json:"tags"`}{...})]. *)
Definition sample_calls : list call :=
  [CallBase "http://h/a/"; CallPath "b"; CallAdd "accept" "text/plain";
   CallAdd "Accept" "text/html"; CallSetBasicAuth "Aladdin" "open sesame";
   CallParam "q" (Str "go rest");
   CallParamStruct (Some (Struct [("tags", Strings ["x"; "y"])]))].


End Examples.

Import gorest Spec Examples.

(** * Properties *)

(** ** Parameter merge *)

Section Merge.

Implicit Types (acc : gmap string any) (m : list (string * any)) (k : string).





End Merge.



(** ** Texts and URLs *)

Section Text.
Import Bytes.

Lemma append_cons (x : ascii) (a b : string) : String x a +:+ b = String x (a +:+ b).
Proof. reflexivity. Qed.

Lemma append_nil (b : string) : "" +:+ b = b.
Proof. reflexivity. Qed.

Lemma contains_byte_cons (c x : ascii) (r : string) :
  contains_byte c (String x r) = Ascii.eqb c x || contains_byte c r.
Proof.
  unfold contains_byte, existsb_string. simpl.
  destruct (Ascii.eqb c x); simpl; done.
Qed.

Lemma contains_byte_app (c : ascii) (a b : string) :
  contains_byte c (a +:+ b) = contains_byte c a || contains_byte c b.
Proof.
  induction a as [|x a IH]; [done|].
  change (String x a +:+ b) with (String x (a +:+ b)).
  rewrite !contains_byte_cons, IH. by rewrite orb_assoc.
Qed.

Lemma cut_app (sep : ascii) (a b : string) :
  contains_byte sep a = false ->
  cut sep (a +:+ b) = let '(x, y, found) := cut sep b in (a +:+ x, y, found).
Proof.
  induction a as [|x a IH]; intros Ha.
  - change ("" +:+ b) with b. destruct (cut sep b) as [[? ?] ?]. reflexivity.
  - rewrite contains_byte_cons in Ha. apply orb_false_elim in Ha as [Hx Ha].
    change (String x a +:+ b) with (String x (a +:+ b)). simpl.
    rewrite Ascii.eqb_sym, Hx, (IH Ha). destruct (cut sep b) as [[? ?] ?]. reflexivity.
Qed.


Lemma cut_fst_clean (sep c : ascii) (s : string) :
  contains_byte c s = false -> contains_byte c (fst (fst (cut sep s))) = false.
Proof.
  induction s as [|x s IH]; intros Hs; [done|].
  rewrite contains_byte_cons in Hs. apply orb_false_elim in Hs as [Hx Hs].
  simpl. destruct (Ascii.eqb x sep); [done|].
  specialize (IH Hs). destruct (cut sep s) as [[a b] f]. simpl in *.
  by rewrite contains_byte_cons, Hx.
Qed.

Lemma cut_fst_no_sep (sep : ascii) (s : string) :
  contains_byte sep (fst (fst (cut sep s))) = false.
Proof.
  induction s as [|x s IH]; [done|].
  simpl. destruct (Ascii.eqb x sep) eqn:Hx; [done|].
  destruct (cut sep s) as [[a b] f]. simpl in *.
  by rewrite contains_byte_cons, Ascii.eqb_sym, Hx.
Qed.

Lemma cut_snd_clean (sep c : ascii) (s : string) :
  contains_byte c s = false -> contains_byte c (snd (fst (cut sep s))) = false.
Proof.
  induction s as [|x s IH]; intros Hs; [done|].
  rewrite contains_byte_cons in Hs. apply orb_false_elim in Hs as [Hx Hs].
  simpl. destruct (Ascii.eqb x sep); [done|].
  specialize (IH Hs). by destruct (cut sep s) as [[a b] f].
Qed.

Lemma cut_snd_of_app (sep : ascii) (a b : string) :
  contains_byte sep a = false ->
  snd (fst (cut sep (a +:+ b))) = snd (fst (cut sep b)).
Proof. intros Ha. rewrite (cut_app _ _ _ Ha). by destruct (cut sep b) as [[? ?] ?]. Qed.

End Text.

Section UrlQuery.
Import Bytes url.

Lemma plain_app (a b : string) : plain a -> plain b -> plain (a +:+ b).
Proof. intros [? ?] [? ?]. split; rewrite contains_byte_app; by apply orb_false_intro. Qed.


Lemma setPath_keeps (u u' : URL) (p : string) :
  setPath u p = Ok u' ->
  RawQuery u' = RawQuery u /\ Scheme u' = Scheme u /\ Opaque u' = Opaque u /\ User u' = User u.
Proof.
  unfold setPath. destruct (unescape p encodePath); simpl; [|done..]. by intros [= <-].
Qed.

Lemma setFragment_keeps (u u' : URL) (f : string) :
  setFragment u f = Ok u' ->
  RawQuery u' = RawQuery u /\ Scheme u' = Scheme u /\ Opaque u' = Opaque u /\ User u' = User u.
Proof.
  unfold setFragment. destruct (unescape f encodeFragment); simpl; [|done..]. by intros [= <-].
Qed.


Lemma app_assoc_cons (a : string) (c : ascii) (r : string) :
  a +:+ String c r = (a +:+ String c "") +:+ r.
Proof. induction a as [|x a IH]; [done|]. by rewrite !append_cons, IH. Qed.

Lemma substring_prefix (a b : string) :
  String.substring 0 (String.length a) (a +:+ b) = a.
Proof.
  induction a as [|x a IH].
  - by destruct b.
  - rewrite append_cons. simpl. by rewrite IH.
Qed.

Lemma length_snoc (a : string) (c : ascii) :
  String.length (a +:+ String c "") = S (String.length a).
Proof. induction a as [|x a IH]; [done|]. rewrite append_cons. simpl. by rewrite IH. Qed.

Lemma forallb_snoc (f : ascii -> bool) (a : string) (c : ascii) :
  forallb_string f a = true -> f c = true -> forallb_string f (a +:+ String c "") = true.
Proof.
  induction a as [|x a IH]; intros Ha Hc.
  - rewrite append_nil. simpl. by rewrite Hc.
  - simpl in Ha. apply andb_prop in Ha as [Hx Ha].
    rewrite append_cons. simpl. by rewrite Hx, IH.
Qed.

(** [getScheme] returns the text as it is, or splits it at a colon that
    follows scheme bytes only. *)
Lemma getScheme_from_spec (s pre sch rest : string) :
  forallb_string scheme_byte pre = true ->
  getScheme_from (String.length pre) s (pre +:+ s) = Ok (sch, rest) ->
  (sch = "" /\ rest = pre +:+ s)
  \/ (forallb_string scheme_byte sch = true /\ pre +:+ s = sch +:+ String ":" rest).
Proof.
  revert pre. induction s as [|c s IH]; intros pre Hpre; simpl.
  - intros [= <- <-]. by left.
  - assert (scheme_byte c = true ->
            getScheme_from (S (String.length pre)) s (pre +:+ String c s) = Ok (sch, rest) ->
            (sch = "" /\ rest = pre +:+ String c s)
            \/ (forallb_string scheme_byte sch = true
                /\ pre +:+ String c s = sch +:+ String ":" rest)) as Hstep.
    { intros Hc H. rewrite app_assoc_cons, <- (length_snoc pre c) in H.
      apply IH in H; [|by apply forallb_snoc]. by rewrite <- app_assoc_cons in H. }
    destruct (is_alpha c) eqn:Halpha.
    { apply Hstep. unfold scheme_byte. by rewrite Halpha. }
    destruct (is_digit c || one_of "+-." c) eqn:Hdig.
    { destruct (String.length pre) eqn:Hlen.
      - intros [= <- <-]. by left.
      - apply Hstep. unfold scheme_byte. rewrite Halpha. simpl. done. }
    destruct (Ascii.eqb_spec c ":") as [->|Hcolon].
    { destruct (String.length pre) eqn:Hlen; [done|].
      rewrite <- Hlen, substring_prefix. intros [= <- <-]. by right. }
    intros [= <- <-]. by left.
Qed.

Lemma getScheme_spec (w sch rest : string) :
  getScheme w = Ok (sch, rest) ->
  (sch = "" /\ rest = w) \/ (forallb_string scheme_byte sch = true /\ w = sch +:+ String ":" rest).
Proof. intros H. by apply (getScheme_from_spec w "" sch rest). Qed.

Lemma forallb_excludes (f : ascii -> bool) (c : ascii) (s : string) :
  f c = false -> forallb_string f s = true -> contains_byte c s = false.
Proof.
  intros Hc. induction s as [|x s IH]; [done|]. simpl. intros H.
  apply andb_prop in H as [Hx Hs]. rewrite contains_byte_cons, (IH Hs), orb_false_r.
  destruct (Ascii.eqb_spec c x) as [->|]; [congruence|done].
Qed.

Lemma forallb_plain (f : ascii -> bool) (s : string) :
  f "?"%char = false -> f "#"%char = false -> forallb_string f s = true -> plain s.
Proof. intros Hq Hh Hs. split; by apply (forallb_excludes f). Qed.

Lemma to_lower_scheme_byte (c : ascii) :
  scheme_byte c = true -> scheme_byte (to_lower c) = true.
Proof. destruct c as [[] [] [] [] [] [] [] []]; vm_compute; done. Qed.

Lemma scheme_plain (sch : string) :
  forallb_string scheme_byte sch = true -> plain (map_string to_lower sch).
Proof.
  intros H. apply (forallb_plain scheme_byte); [done..|].
  induction sch as [|c sch IH]; [done|]. simpl in *.
  apply andb_prop in H as [Hc H]. by rewrite to_lower_scheme_byte, IH.
Qed.

Lemma escape_cons (c : ascii) (r : string) (mode : encoding) :
  escape (String c r) mode = escape (String c "") mode +:+ escape r mode.
Proof.
  simpl. destruct (shouldEscape c mode); [|done].
  destruct (Ascii.eqb c " " && mode_eqb mode encodeQueryComponent); done.
Qed.

Lemma escape_byte_clean (c : ascii) (mode : encoding) :
  contains_byte "#" (escape (String c "") mode) = false
  /\ (mode <> encodeFragment -> contains_byte "?" (escape (String c "") mode) = false).
Proof.
  destruct mode; (split; [|intros Hm]); try done;
    destruct c as [[] [] [] [] [] [] [] []]; vm_compute; reflexivity.
Qed.

Lemma escape_no_hash (s : string) (mode : encoding) :
  contains_byte "#" (escape s mode) = false.
Proof.
  induction s as [|c s IH]; [done|].
  rewrite escape_cons, contains_byte_app, IH.
  by rewrite (proj1 (escape_byte_clean c mode)).
Qed.

Lemma escape_plain (s : string) (mode : encoding) :
  mode <> encodeFragment -> plain (escape s mode).
Proof.
  intros Hm. split; [|apply escape_no_hash].
  induction s as [|c s IH]; [done|].
  rewrite escape_cons, contains_byte_app, IH.
  by rewrite (proj2 (escape_byte_clean c mode) Hm).
Qed.

Lemma EscapedPath_plain (u : URL) : plain (EscapedPath u).
Proof.
  unfold EscapedPath.
  destruct (negb _ && validEncoded (RawPath u) encodePath && _) eqn:Hraw.
  - apply andb_prop in Hraw as [Hraw _]. apply andb_prop in Hraw as [_ Hvalid].
    by apply (forallb_plain _ _ eq_refl eq_refl Hvalid).
  - destruct (String.eqb (Path u) "*"); [done|]. by apply escape_plain.
Qed.

Lemma String_head_plain (u : URL) : clean u -> plain (String_head u).
Proof.
  intros (Hs & Ho & Hu). unfold String_head.
  pose proof (EscapedPath_plain u) as Hp.
  pose proof (escape_plain (Host u) encodeHost ltac:(done)) as Hh.
  assert (plain "") as Hnil by done.
  assert (plain ":") as Hcolon by done.
  assert (plain "//") as Hslashes by done.
  assert (plain "/") as Hslash by done.
  assert (plain "./") as Hdot by done.
  assert (plain "@") as Hat by done.
  destruct (User u) as [ui|] eqn:Hui; [specialize (Hu ui eq_refl)|];
    repeat match goal with
           | |- context [if ?b then _ else _] => destruct b
           end;
    repeat apply plain_app; done.
Qed.

Lemma parseAuthority_user (authority : string) (user : option string) (host : string) :
  parseAuthority authority = Ok (user, host) -> forall ui, user = Some ui -> plain ui.
Proof.
  unfold parseAuthority. destruct (before_last "@" authority) as [userinfo|].
  - destruct (parseHost _); simpl; [|done..].
    destruct (validUserinfo userinfo) eqn:Hvalid; [|done].
    destruct (unescape userinfo encodeUserPassword); simpl; [|done..].
    intros [= <- <-] ui [= <-]. by apply (forallb_plain _ _ eq_refl eq_refl Hvalid).
  - destruct (parseHost authority); simpl; [|done..]. by intros [= <- <-].
Qed.

(** What [parse] makes of a text without fragment: the query is the text
    after the first [?]. *)
Lemma parse_spec (w : string) (u : URL) :
  url.parse w = Ok u ->
  RawQuery u = snd (fst (cut "?" w))
  /\ (contains_byte "#" w = false -> clean u).
Proof.
  unfold url.parse. destruct (stringContainsCTLByte w); [done|].
  destruct (String.eqb_spec w "*") as [->|Hstar].
  { intros [= <-]. by repeat split. }
  destruct (getScheme w) as [[sch rest0]| |] eqn:Hsch; simpl; [|done..].
  destruct (cut "?" rest0) as [[rest query] found] eqn:Hcut.
  assert (query = snd (fst (cut "?" w))
          /\ plain (map_string to_lower sch)
          /\ (contains_byte "#" w = false -> plain rest)) as (Hquery & Hscheme & Hrest).
  { pose proof (cut_fst_no_sep "?" rest0) as Hq.
    pose proof (cut_fst_clean "?" "#" rest0) as Hh. rewrite Hcut in Hq, Hh. simpl in Hq, Hh.
    apply getScheme_spec in Hsch as [[-> ->]|[Hs ->]].
    - rewrite Hcut. by repeat split; auto.
    - pose proof (scheme_plain sch Hs) as Hlow.
      destruct (forallb_plain scheme_byte sch eq_refl eq_refl Hs) as [Hsq Hsh].
      rewrite (cut_snd_of_app _ _ _ Hsq). simpl.
      rewrite Hcut. simpl. repeat split; try done; try apply Hlow.
      match goal with
      | Hw : contains_byte "#" (_ +:+ _) = false |- _ =>
          rewrite contains_byte_app, contains_byte_cons in Hw;
          apply orb_false_elim in Hw as [_ Hw]; apply orb_false_elim in Hw as [_ Hw]
      end.
      auto. }
  assert (forall v p, RawQuery v = query -> Scheme v = map_string to_lower sch ->
                      Opaque v = "" -> (forall ui, User v = Some ui -> plain ui) ->
                      setPath v p = Ok u ->
                      RawQuery u = snd (fst (cut "?" w))
                      /\ (contains_byte "#" w = false -> clean u)) as Hset.
  { intros v p Hvq Hvs Hvo Hvu Hp. apply setPath_keeps in Hp as (Hq1 & Hs1 & Ho1 & Hu1).
    unfold clean. rewrite Hq1, Hs1, Ho1, Hu1, Hvq, Hvs, Hvo.
    split; [done|]. intros _. split; [exact Hscheme|]. split; [done|exact Hvu]. }
  destruct (negb (has_prefix "/" rest) && negb (String.eqb (map_string to_lower sch) "")).
  { intros [= <-]. unfold clean. simpl. split; [done|]. intros Hw.
    split; [exact Hscheme|]. split; [by apply Hrest|done]. }
  destruct (negb (has_prefix "/" rest) && _); [done|].
  destruct ((negb _ || negb _) && has_prefix "//" rest).
  { destruct (cut "/" (drop 2 rest)) as [[authority tail] slash].
    destruct (parseAuthority authority) as [[user host]| |] eqn:Hauth; simpl; [|done..].
    apply Hset; try done. simpl. by apply (parseAuthority_user _ _ _ Hauth). }
  destruct (negb _ && has_prefix "/" rest); by apply Hset.
Qed.

Lemma Parse_spec (raw : string) (u : URL) :
  Parse raw = Ok u ->
  RawQuery u = snd (fst (cut "?" (fst (fst (cut "#" raw))))) /\ clean u.
Proof.
  unfold Parse. pose proof (cut_fst_no_sep "#" raw) as Hw.
  destruct (cut "#" raw) as [[w frag] found]. simpl in *.
  destruct (url.parse w) as [v| |] eqn:Hparse; [|done..].
  apply parse_spec in Hparse as [Hq Hclean]. specialize (Hclean Hw).
  destruct (String.eqb frag "").
  - by intros [= <-].
  - destruct (setFragment v frag) as [v'| |] eqn:Hfrag; [|done..].
    intros [= <-]. apply setFragment_keeps in Hfrag as (Hq' & Hs & Ho & Hu).
    unfold clean. by rewrite Hq', Hs, Ho, Hu.
Qed.

Lemma append_nil_r (a : string) : a +:+ "" = a.
Proof. induction a as [|x a IH]; [done|]. by rewrite append_cons, IH. Qed.

(** Reading back the text of a URL whose query was set to [q] gives the
    query [q], when [q] has no [#]. *)
Lemma Parse_String_query (u u' : URL) (q : string) :
  clean u ->
  contains_byte "#" q = false ->
  Parse (String_ (with_RawQuery u q)) = Ok u' ->
  RawQuery u' = q.
Proof.
  intros Hclean Hq Hparse. apply Parse_spec in Hparse as [-> _].
  destruct (String_head_plain u Hclean) as [Hhq Hhh].
  change (String_ (with_RawQuery u q))
    with (String_head u +:+ (if ForceQuery u || negb (String.eqb q "") then "?" +:+ q else "")
          +:+ String_fragment u).
  set (Q := if ForceQuery u || negb (String.eqb q "") then "?" +:+ q else "").
  assert (contains_byte "#" Q = false /\ snd (fst (cut "?" Q)) = q) as [HQh HQq].
  { unfold Q. destruct (ForceQuery u || negb (String.eqb q "")) eqn:Hforce.
    - split; [|done]. by rewrite contains_byte_app, Hq.
    - split; [done|]. apply orb_false_elim in Hforce as [_ Hforce].
      apply negb_false_iff in Hforce. by apply String.eqb_eq in Hforce as ->. }
  assert (fst (fst (cut "#" (String_head u +:+ Q +:+ String_fragment u))) = String_head u +:+ Q)
    as ->.
  { replace (String_head u +:+ Q +:+ String_fragment u)
      with ((String_head u +:+ Q) +:+ String_fragment u).
    2:{ clear. induction (String_head u) as [|x a IH]; [done|]. by rewrite !append_cons, IH. }
    rewrite cut_app by (by rewrite contains_byte_app, Hhh, HQh).
    unfold String_fragment. destruct (String.eqb (Fragment u) ""); simpl.
    - apply append_nil_r.
    - apply append_nil_r. }
  by rewrite (cut_snd_of_app _ _ _ Hhq).
Qed.

Lemma with_RawQuery_same (u : URL) : with_RawQuery u (RawQuery u) = u.
Proof. by destruct u. Qed.

Lemma Parse_String_same_query (raw : string) (u u' : URL) :
  Parse raw = Ok u -> Parse (String_ u) = Ok u' -> RawQuery u' = RawQuery u.
Proof.
  intros Hu Hu'. pose proof (Parse_spec _ _ Hu) as [Hq Hclean].
  rewrite <- (with_RawQuery_same u) in Hu'.
  apply (Parse_String_query u u' _ Hclean); [|done].
  rewrite Hq. apply cut_snd_clean, cut_fst_no_sep.
Qed.

Lemma join_clean (c : ascii) (sep : string) (l : list string) :
  contains_byte c sep = false ->
  Forall (fun s => contains_byte c s = false) l ->
  contains_byte c (join sep l) = false.
Proof.
  intros Hsep Hl. unfold join. induction Hl as [|x l Hx Hl IH]; [done|].
  destruct l as [|y l]; [done|].
  change (String.concat sep (x :: y :: l)) with (x +:+ sep +:+ String.concat sep (y :: l)).
  by rewrite !contains_byte_app, Hx, Hsep, IH.
Qed.

Lemma Values_Encode_no_hash (v : gmap string (list string)) :
  contains_byte "#" (Values_Encode v) = false.
Proof.
  unfold Values_Encode. apply join_clean; [done|].
  apply Forall_concat, Forall_map, Forall_forall. intros k _.
  apply Forall_map, Forall_forall. intros x _. simpl. unfold QueryEscape.
  by rewrite !contains_byte_app, !escape_no_hash.
Qed.

Lemma formSting_no_hash (params : list any) (str : string) :
  formSting params = Ok str -> contains_byte "#" str = false.
Proof.
  unfold formSting. destruct (toMap params); simpl; [|done..].
  destruct (changeMapToURLValues _); simpl; [|done..].
  intros [= <-]. apply Values_Encode_no_hash.
Qed.

End UrlQuery.

(** ** Building the request *)

Section Build.

Implicit Types (h : mem.heap) (s : RestClient) (req : http.Request).

(** [addHeaders] only touches the header of the request. *)
Lemma addHeaders_frame h req (hd : http.Header) :
  http.Method (addHeaders h req hd) = http.Method req
  /\ http.URL (addHeaders h req hd) = http.URL req
  /\ http.ReqBody (addHeaders h req hd) = http.ReqBody req.
Proof.
  unfold addHeaders.
  apply (map_fold_weak_ind
           (fun (r : http.Request) (_ : http.Header) =>
              http.Method r = http.Method req /\ http.URL r = http.URL req
              /\ http.ReqBody r = http.ReqBody req)); [done|].
  intros key values m r _ IH. generalize (mem.read h values). intros l.
  revert r IH. induction l as [|x l IHl]; intros r IH; simpl; [done|].
  apply IHl. simpl. done.
Qed.

Lemma NewRequest_inv (m urlStr : string) (body : option string) req :
  http.NewRequest m urlStr body = Ok req ->
  http.ReqBody req = body /\ request_url urlStr (http.URL req).
Proof.
  unfold http.NewRequest, request_url.
  destruct (negb _); [done|].
  destruct (url.Parse urlStr) as [u| |]; simpl; [|done..].
  intros [= <-]. simpl. eauto.
Qed.

End Build.

(** C2, as the code has it. A request built with method [GET] is created
    from the stored URL with the serialized parameters set as its query
    component, and has no body: its URL has exactly that query whenever the
    serialized text has no [#], as in FORM mode.  A request built with [HEAD],
    [POST], [PUT], [PATCH] or [DELETE] carries the serialized parameters as
    its body and is created from the stored URL, whose query the serializer
    does not touch.  ([HEAD] is in the body group.) *)
Theorem Request_packaging (h : mem.heap) (s : RestClient) (req : http.Request) :
  Request h s = Ok req ->
  exists reqURL str,
    url.Parse (rawURL s) = Ok reqURL /\ call_serialize s = Ok str /\
    ((method s = "GET"
      /\ request_url (url.String_ (url.with_RawQuery reqURL str)) (http.URL req)
      /\ (Bytes.contains_byte "#" str = false -> url.RawQuery (http.URL req) = str)
      /\ (serialize s = Some formSting -> url.RawQuery (http.URL req) = str)
      /\ http.ReqBody req = None)
     \/ (method s ∈ body_methods
         /\ request_url (url.String_ reqURL) (http.URL req)
         /\ url.RawQuery (http.URL req) = url.RawQuery reqURL
         /\ http.ReqBody req = Some str)).
Proof.
  unfold Request. destruct (url.Parse (rawURL s)) as [reqURL| |] eqn:Hparse; simpl; [|done..].
  destruct (String.eqb_spec (method s) "GET") as [Hget|Hget].
  - destruct (call_serialize s) as [str| |] eqn:Hstr; simpl; [|done..].
    destruct (http.NewRequest _ _ None) as [r| |] eqn:Hnew; simpl; [|done..].
    intros [= <-]. exists reqURL, str. split; [done|]. split; [done|]. left.
    destruct (addHeaders_frame h r (header s)) as (_ & -> & ->).
    apply NewRequest_inv in Hnew as [-> Hurl].
    assert (Bytes.contains_byte "#" str = false -> url.RawQuery (http.URL r) = str) as Hquery.
    { intros Hhash. destruct Hurl as (parsed & Hparsed & ->). simpl.
      apply (Parse_String_query reqURL parsed str); [|done..].
      by apply Parse_spec in Hparse as [_ ?]. }
    repeat split; try done.
    intros Hform. apply Hquery. unfold call_serialize in Hstr. rewrite Hform in Hstr.
    by apply formSting_no_hash in Hstr.
  - case_bool_decide as Hin; simpl; [|done].
    destruct (call_serialize s) as [str| |]; simpl; [|done..].
    destruct (http.NewRequest _ _ (Some str)) as [r| |] eqn:Hnew; simpl; [|done..].
    intros [= <-]. exists reqURL, str. split; [done|]. split; [done|]. right.
    destruct (addHeaders_frame h r (header s)) as (_ & -> & ->).
    apply NewRequest_inv in Hnew as [-> Hurl]. repeat split; try done.
    destruct Hurl as (parsed & Hparsed & ->). simpl.
    by apply (Parse_String_same_query (rawURL s)).
Qed.

Lemma Request_packaging_witness :
  exists req,
    Request mem.empty_heap get_a_x = Ok req /\
    exists reqURL str,
      url.Parse (rawURL get_a_x) = Ok reqURL /\ call_serialize get_a_x = Ok str /\
      ((method get_a_x = "GET"
        /\ request_url (url.String_ (url.with_RawQuery reqURL str)) (http.URL req)
        /\ (Bytes.contains_byte "#" str = false -> url.RawQuery (http.URL req) = str)
        /\ (serialize get_a_x = Some formSting -> url.RawQuery (http.URL req) = str)
        /\ http.ReqBody req = None)
       \/ (method get_a_x ∈ body_methods
           /\ request_url (url.String_ reqURL) (http.URL req)
           /\ url.RawQuery (http.URL req) = url.RawQuery reqURL
           /\ http.ReqBody req = Some str)).
Proof.
  eexists. split.
  - vm_compute. reflexivity.
  - eapply (Request_packaging mem.empty_heap get_a_x). vm_compute. reflexivity.
Defined.

(** In JSON mode a [#] in a value ends the query of a [GET] request. *)
Lemma Request_json_hash :
  exists req,
    Request mem.empty_heap (JSON (get_list "a" (Str "x#y"))) = Ok req
    /\ call_serialize (JSON (get_list "a" (Str "x#y")))
       = Ok ("{" +:+ q +:+ "a" +:+ q +:+ ":" +:+ q +:+ "x#y" +:+ q +:+ "}")
    /\ url.RawQuery (http.URL req) = "{" +:+ q +:+ "a" +:+ q +:+ ":" +:+ q +:+ "x"
    /\ url.Fragment (http.URL req) = "y" +:+ q +:+ "}".
Proof. eexists. repeat split; vm_compute; reflexivity. Qed.

(** The claim of C2 fails for [HEAD]: the parameters of
    [New().Base("http://h/").Param("a", "x").Head("p")] are sent as the body,
    and the query of the URL stays empty. *)
Lemma Request_head_counterexample :
  exists req,
    Request mem.empty_heap head_a_x = Ok req
    /\ method head_a_x = "HEAD"
    /\ call_serialize head_a_x = Ok "a=x"
    /\ http.ReqBody req = Some "a=x"
    /\ url.RawQuery (http.URL req) = ""
    /\ ~ (url.RawQuery (http.URL req) = "a=x" /\ http.ReqBody req = None).
Proof.
  eexists. split; [vm_compute; reflexivity|].
  repeat split; try (vm_compute; reflexivity).
  intros [_ Hbody]. vm_compute in Hbody. discriminate Hbody.
Qed.

(** ** Panics *)

(** C3, where the code departs from it. A clone made by the method [New]
    has no serializer: on any clone whose URL parses and whose method is one
    of the six known ones, [Request] and [Receive] call the nil func and
    panic. *)
Theorem clone_Request_panics (h : mem.heap) (s : RestClient) (reqURL : url.URL) :
  url.Parse (rawURL s) = Ok reqURL ->
  method s = "GET" \/ method s ∈ body_methods ->
  Request h (RestClient_New s) = Panic nil_dereference
  /\ forall exec value statusCode,
       returned (Receive exec h (RestClient_New s) value statusCode) = Panic nil_dereference.
Proof.
  intros Hparse Hmethod.
  assert (Request h (RestClient_New s) = Panic nil_dereference) as Hreq.
  { unfold Request. simpl. rewrite Hparse. simpl.
    destruct Hmethod as [->|Hin]; [done|].
    destruct (String.eqb (method s) "GET"); [done|].
    rewrite bool_decide_eq_true_2 by done. done. }
  split; [done|]. intros exec value statusCode. unfold Receive. rewrite Hreq. done.
Qed.

Lemma clone_Request_panics_witness :
  Request mem.empty_heap (RestClient_New New) = Panic nil_dereference
  /\ forall exec value statusCode,
       returned (Receive exec mem.empty_heap (RestClient_New New) value statusCode)
       = Panic nil_dereference.
Proof.
  apply (clone_Request_panics mem.empty_heap New url.empty).
  - vm_compute. reflexivity.
  - left. reflexivity.
Defined.

(** A list whose elements differ in type also panics: the type assertion
    of [changeMapToURLValues] follows the type of the first element. *)
Lemma mixed_list_panics :
  Request mem.empty_heap (get_list "a" (Slice [Str "x"; Bool true]))
  = Panic "interface conversion: interface {} is bool, not string".
Proof. vm_compute. reflexivity. Qed.

(** ** FORM serialization of numbers and lists *)

(** What [json.Unmarshal] puts into an [interface{}] is nil, a [bool], a
    [float64], a [string], a [[]interface{}] or a [map[string]interface{}]:
    never an [int], a [json.Number] or a typed slice. *)
Lemma decode_any_kinds (d : json.doc) :
  match fst (json.decode_any d) with
  | Nil | Bool _ | Float64 _ | Str _ | Slice _ | Map _ => True
  | _ => False
  end.
Proof.
  destruct d; simpl; try done.
  unfold json.convertNumber. by destruct (strconv.ParseFloat lit 64).
Qed.

Section Form.

Implicit Types (k : string) (acc : url.Values) (l : list string).

Lemma add_each_map {A : Type} k (f : A -> string) (items : list A) acc :
  add_each k f items acc = add_each k id (map f items) acc.
Proof.
  unfold add_each. revert acc. induction items as [|x items IH]; intros acc; [done|].
  simpl. apply IH.
Qed.

Lemma assert_each_spec k (get : any -> option string) (want : string) (items : list any) acc :
  assert_each k get want items acc
  = (texts ← all_of get want items; Ok (add_each k id texts acc)).
Proof.
  revert acc. induction items as [|x items IH]; intros acc; [done|]. simpl.
  destruct (get x) as [text|]; [|done]. rewrite IH.
  by destruct (all_of get want items).
Qed.

Lemma step_spec k (v : any) acc :
  changeMapToURLValues_step k v acc = (l ← form_values v; Ok (add_each k id l acc)).
Proof.
  destruct v as [ | | | |t n| | | | | | | |items| | | ]; try done;
    try (simpl; by rewrite add_each_map).
  - by destruct t.
  - destruct items as [|[] items]; try done;
      unfold changeMapToURLValues_step, form_values; apply assert_each_spec.
Qed.

Lemma add_each_lookup k l acc (k' : string) :
  add_each k id l acc !! k'
  = if decide (k' = k)
    then match l with
         | [] => acc !! k
         | _ => Some (default [] (acc !! k) ++ l)
         end
    else acc !! k'.
Proof.
  unfold add_each. revert acc. induction l as [|x l IH]; intros acc.
  - simpl. by case_decide; subst.
  - simpl. rewrite IH. unfold url.Values_Add. case_decide as Hk.
    + subst. rewrite lookup_insert_eq. simpl.
      destruct l; simpl; [done|]. by rewrite <- app_assoc.
    + by rewrite lookup_insert_ne.
Qed.

(** [changeMapToURLValues] holds, under every key, the values of that key
    of the flat map, and no key without values. *)
Lemma changeMapToURLValues_lookup (data : gmap string any) (vals : url.Values) k :
  changeMapToURLValues data = Ok vals ->
  vals !! k = (data !! k) ≫= listed.
Proof.
  unfold changeMapToURLValues. revert vals k.
  apply (map_fold_weak_ind
           (fun (r : result url.Values) (m : gmap string any) =>
              forall vals k, r = Ok vals -> vals !! k = (m !! k) ≫= listed)).
  - intros vals k [= <-]. by rewrite !lookup_empty.
  - intros i x m r Hi IH vals k. destruct r as [acc| |]; simpl; [|done..].
    rewrite step_spec. unfold listed.
    destruct (form_values x) as [l| |] eqn:Hx; simpl; [|done..].
    intros [= <-]. rewrite add_each_lookup.
    case_decide as Hk.
    + subst. rewrite lookup_insert_eq, (IH acc i eq_refl), Hi. simpl. unfold listed.
      rewrite Hx. by destruct l.
    + rewrite lookup_insert_ne by done. by apply IH.
Qed.

End Form.

(** Lists as [toMap] yields them: the strings and the booleans of a list
    are the values of its key, in order; a list of numbers gives the key no
    value. *)
Lemma all_of_strings (l : list string) :
  all_of (fun e => match e with Str x => Some x | _ => None end) "string" (map Str l) = Ok l.
Proof. induction l as [|x l IH]; [done|]. simpl. by rewrite IH. Qed.

Lemma all_of_bools (l : list bool) :
  all_of (fun e => match e with Bool x => Some (strconv.FormatBool x) | _ => None end)
    "bool" (map Bool l)
  = Ok (map strconv.FormatBool l).
Proof. induction l as [|x l IH]; [done|]. simpl. by rewrite IH. Qed.

Lemma form_lists (data : gmap string any) (vals : url.Values) (k : string) :
  changeMapToURLValues data = Ok vals ->
  (forall x l, data !! k = Some (Slice (map Str (x :: l))) -> vals !! k = Some (x :: l))
  /\ (forall x l, data !! k = Some (Slice (map Bool (x :: l))) ->
        vals !! k = Some (map strconv.FormatBool (x :: l)))
  /\ (forall f rest, data !! k = Some (Slice (Float64 f :: rest)) -> vals !! k = None).
Proof.
  intros Hvals. repeat split.
  - intros x l Hk. rewrite (changeMapToURLValues_lookup _ _ _ Hvals), Hk. simpl.
    unfold listed. change (form_values (Slice (Str x :: map Str l)))
      with (all_of (fun e => match e with Str x => Some x | _ => None end) "string"
              (map Str (x :: l))).
    by rewrite all_of_strings.
  - intros x l Hk. rewrite (changeMapToURLValues_lookup _ _ _ Hvals), Hk. simpl.
    unfold listed. change (form_values (Slice (Bool x :: map Bool l)))
      with (all_of (fun e => match e with
                             | Bool x => Some (strconv.FormatBool x)
                             | _ => None
                             end) "bool" (map Bool (x :: l))).
    by rewrite all_of_bools.
  - intros f rest Hk. by rewrite (changeMapToURLValues_lookup _ _ _ Hvals), Hk.
Qed.

(** A number as [toMap] yields it is sent as the shortest decimal of its
    [float64]. *)
Lemma form_numbers (data : gmap string any) (vals : url.Values) (k : string)
    (f : strconv.float64) :
  changeMapToURLValues data = Ok vals ->
  data !! k = Some (Float64 f) ->
  vals !! k = Some [strconv.FormatFloat_f f 64].
Proof. intros Hvals Hk. by rewrite (changeMapToURLValues_lookup _ _ _ Hvals), Hk. Qed.

(** A list that starts with a [float64] adds nothing to the form values. *)
Lemma float64_list_adds_nothing (k : string) (f : strconv.float64) (rest : list any)
    (newUrlValues : url.Values) :
  changeMapToURLValues_step k (Slice (Float64 f :: rest)) newUrlValues = Ok newUrlValues.
Proof. reflexivity. Qed.

(** C4, where the code departs from it. The [int64] 9007199254740993 is
    sent as 9007199254740992: [toMap] reads every number back as a
    [float64]. *)
Theorem form_integer_rounded :
  formSting (data get_big_int) = Ok "n=9007199254740992"
  /\ strconv.FormatInt 9007199254740993 = "9007199254740993"
  /\ exists req, Request mem.empty_heap get_big_int = Ok req
                 /\ url.String_ (http.URL req) = "http://h/p?n=9007199254740992".
Proof.
  split; [vm_compute; reflexivity|]. split; [vm_compute; reflexivity|].
  eexists. split; vm_compute; reflexivity.
Qed.

(** Small integers keep their digits. *)
Lemma form_small_integers :
  formSting [Map [("a", Int TInt 1); ("b", Int TInt8 (-7)); ("c", Int TUint64 9007199254740992)]]
  = Ok "a=1&b=-7&c=9007199254740992".
Proof. vm_compute. reflexivity. Qed.

(** C5, where the code departs from it. A list of strings or of booleans
    is sent as one pair per element, in order; a list of integers or of
    floats is dropped: its elements come back from [toMap] as [float64],
    which the inner type switch does not list. *)
Theorem form_number_list_dropped :
  formSting (data (get_list "tags" (Strings ["x"; "y"]))) = Ok "tags=x&tags=y"
  /\ formSting (data (get_list "b" (Bools [true; false]))) = Ok "b=true&b=false"
  /\ formSting (data (get_list "n" (Ints [1; 2]))) = Ok ""
  /\ formSting (data (get_list "f" (Float64s [f1_5; f2_5]))) = Ok ""
  /\ exists req, Request mem.empty_heap (get_list "n" (Ints [1; 2])) = Ok req
                 /\ url.String_ (http.URL req) = "http://h/p".
Proof.
  repeat split; try (vm_compute; reflexivity).
  eexists. split; vm_compute; reflexivity.
Qed.

(** ** Receive *)

(** [Receive] once the request is built, sent and answered, and the body
    read. *)
Lemma Receive_answered (exec : Doer -> http.Request -> result http.Response) (h : mem.heap)
    (s : RestClient) (value : option any) (statusCode : list (option Z))
    (req : http.Request) (resp : http.Response) (body : string) :
  Request h s = Ok req ->
  exec (httpClient s) req = Ok resp ->
  http.Body resp = Ok body ->
  status_pointer_ok statusCode ->
  returned (Receive exec h s value statusCode)
  = (if negb (http.StatusCode resp =? 200) then Err body
     else match value with
          | Some v =>
              match snd (json.Unmarshal body v) with
              | Some e => Err ("parse message body err: " +:+ e +:+ ", message: " +:+ body)
              | None => Ok tt
              end
          | None => Ok tt
          end)
  /\ destination (Receive exec h s value statusCode)
     = (if negb (http.StatusCode resp =? 200) then value
        else match value with
             | Some v => Some (fst (json.Unmarshal body v))
             | None => None
             end).
Proof.
  intros Hreq Hdo Hbody Hptr. unfold Receive. rewrite Hreq, Hdo, Hbody.
  destruct statusCode as [|[old|] rest]; [| |done];
    (destruct (negb _); [done|]; destruct value as [v|]; [|done];
     destruct (json.Unmarshal body v) as [v' [e|]]; done).
Qed.

(** C6. For every response with a non-success status, [Receive] returns an
    error whose message is the raw response body, whatever destination was
    supplied, and leaves the destination alone: for every status other than
    200 in [gorest.go], and for every status outside 200..299 in the earlier
    variant of the file. *)
Theorem Receive_api_error
    (exec : Doer -> http.Request -> result http.Response) (h : mem.heap)
    (value : option any) (req : http.Request) (resp : http.Response) (body : string) :
  http.Body resp = Ok body ->
  (forall (s : RestClient) (statusCode : list (option Z)),
     Request h s = Ok req ->
     exec (httpClient s) req = Ok resp ->
     status_pointer_ok statusCode ->
     http.StatusCode resp <> 200 ->
     returned (Receive exec h s value statusCode) = Err body
     /\ destination (Receive exec h s value statusCode) = value)
  /\ (forall (goquery_Values : any -> result url.Values) (s : gorest0.RestClient)
             (result_ : list any),
        gorest0.Request goquery_Values h s = Ok req ->
        exec (gorest0.httpClient s) req = Ok resp ->
        http.StatusCode resp < 200 \/ 299 < http.StatusCode resp ->
        returned (gorest0.Receive goquery_Values exec h s value result_) = Err body
        /\ destination (gorest0.Receive goquery_Values exec h s value result_) = value).
Proof.
  intros Hbody. split.
  - intros s statusCode Hreq Hdo Hptr Hcode.
    destruct (Receive_answered exec h s value statusCode req resp body) as [-> ->]; try done.
    assert ((http.StatusCode resp =? 200) = false) as -> by lia. done.
  - intros goq s result_ Hreq Hdo Hcode. unfold gorest0.Receive.
    rewrite Hreq, Hdo, Hbody.
    assert (((http.StatusCode resp <? 200) || (299 <? http.StatusCode resp)) = true) as ->.
    { destruct Hcode; [apply orb_true_intro; left | apply orb_true_intro; right]; lia. }
    done.
Qed.

Lemma Receive_api_error_witness :
  (returned (Receive (always 404 body_nope) mem.empty_heap get_a_x (Some dest_id) [Some 0])
   = Err body_nope
   /\ destination (Receive (always 404 body_nope) mem.empty_heap get_a_x (Some dest_id) [Some 0])
      = Some dest_id)
  /\ (returned (gorest0.Receive no_values (always 404 body_nope) mem.empty_heap earlier_get
                  (Some dest_id) [])
      = Err body_nope
      /\ destination (gorest0.Receive no_values (always 404 body_nope) mem.empty_heap earlier_get
                        (Some dest_id) [])
         = Some dest_id).
Proof.
  split.
  - apply (proj1 (Receive_api_error (always 404 body_nope) mem.empty_heap (Some dest_id)
                    request_get_a_x (response 404 body_nope) body_nope eq_refl)).
    + vm_compute. reflexivity.
    + reflexivity.
    + exact I.
    + simpl. lia.
  - eapply (proj2 (Receive_api_error (always 404 body_nope) mem.empty_heap (Some dest_id)
                     _ (response 404 body_nope) body_nope eq_refl)).
    + vm_compute. reflexivity.
    + reflexivity.
    + right. simpl. lia.
Defined.

(** The 404 of the specification: the message holds [nope], with or without
    a destination. *)
Lemma Receive_404_nope (value : option any) :
  exists before after,
    returned (Receive (always 404 body_nope) mem.empty_heap get_a_x value [])
    = Err (before +:+ "nope" +:+ after).
Proof.
  exists ("{" +:+ q +:+ "msg" +:+ q +:+ ":" +:+ q), (q +:+ "}").
  destruct value; vm_compute; reflexivity.
Qed.

(** ** Decoding into a destination *)

Section Decode.

Implicit Types (fs fields : list (string * any)) (members : list (string * json.doc)).


















End Decode.



(** The two responses of the specification: [{"id":5}] sets the field to 5;
    a body cut short is reported with the body in the message. *)
Lemma Receive_id5 :
  json.Unmarshal body_id5 dest_id = (Struct [("id", Int TInt 5)], None)
  /\ returned (Receive (always 200 body_id5) mem.empty_heap get_a_x (Some dest_id) []) = Ok tt
  /\ destination (Receive (always 200 body_id5) mem.empty_heap get_a_x (Some dest_id) [])
     = Some (Struct [("id", Int TInt 5)])
  /\ returned (Receive (always 200 body_cut) mem.empty_heap get_a_x (Some dest_id) [])
     = Err ("parse message body err: unexpected end of JSON input, message: " +:+ body_cut).
Proof. repeat split; vm_compute; reflexivity. Qed.

(** ** Path *)

(** C8. For every builder and every path: when the stored URL or the path
    does not parse, [Path] returns the builder as it was (the stored URL in
    particular), and so do the method calls, apart from the method they
    set. *)
Theorem Path_fail_soft (s : RestClient) (path : string) :
  is_Ok (url.Parse (rawURL s)) = false \/ is_Ok (url.Parse path) = false ->
  Path s path = s
  /\ rawURL (Get s path) = rawURL s
  /\ rawURL (Post s path) = rawURL s.
Proof.
  intros Hfail.
  assert (forall t, rawURL t = rawURL s -> Path t path = t) as Hpath.
  { intros t Ht. unfold Path. rewrite Ht.
    destruct (url.Parse (rawURL s)), (url.Parse path); try done.
    destruct Hfail; discriminate. }
  split; [by apply Hpath|]. unfold Get, Post. rewrite !Hpath; done.
Qed.

Lemma Path_fail_soft_witness :
  Path (Base New "http://h/a/") ":" = Base New "http://h/a/"
  /\ rawURL (Get (Base New "http://h/a/") ":") = rawURL (Base New "http://h/a/")
  /\ rawURL (Post (Base New "http://h/a/") ":") = rawURL (Base New "http://h/a/").
Proof.
  apply (Path_fail_soft (Base New "http://h/a/") ":").
  right. vm_compute. reflexivity.
Defined.

(** [Path] on the two bases of the specification. *)
Lemma Path_resolves :
  rawURL (Path (Base New "http://h/a/") "b") = "http://h/a/b"
  /\ rawURL (Path (Base New "http://h/a") "b") = "http://h/b"
  /\ rawURL (Path (Base New "%zz") "b") = "%zz".
Proof. repeat split; vm_compute; reflexivity. Qed.

(** ** Clones *)

(** The header map of a clone holds the very slice values of its parent. *)
Lemma clone_header_same_slices (s : RestClient) : header (RestClient_New s) = header s.
Proof.
  unfold RestClient_New. simpl.
  apply (map_fold_weak_ind (fun (copy : http.Header) (m : http.Header) => copy = m)); [done|].
  by intros k v m copy _ ->.
Qed.

(** [append] on a slice with room left writes the next cell of its array. *)
Lemma append_in_place (h : mem.heap) (sl : mem.slice) (x : string) (cells : list string) :
  (mem.len sl < mem.cap sl)%nat ->
  mem.arrays h !! mem.ptr sl = Some cells ->
  (mem.len sl < length cells)%nat ->
  exists h' sl',
    mem.append h sl x = (h', sl')
    /\ mem.ptr sl' = mem.ptr sl /\ mem.len sl' = S (mem.len sl) /\ mem.cap sl' = mem.cap sl
    /\ mem.arrays h' !! mem.ptr sl = Some (<[mem.len sl := x]> cells)
    /\ mem.read h' sl' = take (mem.len sl) cells ++ [x].
Proof.
  intros Hcap Hcells Hlen. unfold mem.append.
  destruct (Nat.ltb_spec (mem.len sl) (mem.cap sl)) as [_|]; [|lia].
  eexists _, _. split; [reflexivity|]. simpl. repeat split.
  - by rewrite lookup_alter_eq, Hcells.
  - unfold mem.read. simpl. rewrite lookup_alter_eq, Hcells. simpl.
    rewrite (take_S_r _ _ x); [|by apply list_lookup_insert_eq].
    by rewrite take_insert_ge.
Qed.

(** C9, where the code departs from it. The clone's header map holds the
    slice values of the parent, so both point to one backing array.  When
    the slice of a key has room left (its length is below its capacity, as
    after three [Add] calls), a value added to the clone lands in the next
    cell of that array, and a value added to the parent afterwards lands
    in the same cell: the clone's header, which showed [x] last, now shows
    [y]. *)
Theorem clone_header_aliasing (h : mem.heap) (s : RestClient) (key x y : string)
    (sl : mem.slice) (cells : list string) :
  header s !! http.CanonicalHeaderKey key = Some sl ->
  (mem.len sl < mem.cap sl)%nat ->
  mem.arrays h !! mem.ptr sl = Some cells ->
  (mem.len sl < length cells)%nat ->
  http.Header_Values h (header (RestClient_New s)) key = http.Header_Values h (header s) key
  /\ http.Header_Values (fst (Add h (RestClient_New s) key x))
       (header (snd (Add h (RestClient_New s) key x))) key
     = take (mem.len sl) cells ++ [x]
  /\ http.Header_Values (fst (Add (fst (Add h (RestClient_New s) key x)) s key y))
       (header (snd (Add h (RestClient_New s) key x))) key
     = take (mem.len sl) cells ++ [y].
Proof.
  intros Hsl Hcap Hcells Hlen. unfold Add, http.Header_Values, http.Header_Add.
  rewrite clone_header_same_slices, Hsl. simpl.
  destruct (append_in_place h sl x cells Hcap Hcells Hlen)
    as (h1 & sl1 & -> & Hptr & Hlen1 & Hcap1 & Hcells1 & Hread1).
  simpl. rewrite lookup_insert_eq. simpl. split; [done|]. split; [done|].
  destruct (append_in_place h1 sl y (<[mem.len sl := x]> cells) Hcap Hcells1)
    as (h2 & sl2 & -> & _ & _ & _ & Hcells2 & _).
  { by rewrite length_insert. }
  simpl. unfold mem.read. rewrite Hptr, Hlen1, Hcells2. simpl.
  rewrite list_insert_insert_eq.
  rewrite (take_S_r _ _ y); [|by apply list_lookup_insert_eq].
  by rewrite take_insert_ge.
Qed.

Lemma clone_header_aliasing_witness :
  http.Header_Values (fst parent) (header (RestClient_New (snd parent))) "K"
  = http.Header_Values (fst parent) (header (snd parent)) "K"
  /\ http.Header_Values (fst child_added) (header (snd child_added)) "K"
     = ["1"; "2"; "3"; "c"]
  /\ http.Header_Values (fst parent_added) (header (snd child_added)) "K"
     = ["1"; "2"; "3"; "o"].
Proof.
  apply (clone_header_aliasing (fst parent) (snd parent) "K" "c" "o"
           {| mem.ptr := 3; mem.len := 3; mem.cap := 4 |} ["1"; "2"; "3"; ""]).
  - vm_compute. reflexivity.
  - simpl. lia.
  - vm_compute. reflexivity.
  - simpl. lia.
Defined.

(** The parent with three values of the samples: the clone shows
    [1 2 3 c], then [1 2 3 o] once the parent has added [o]. *)
Lemma clone_header_shared :
  http.Header_Values (fst parent) (header (snd parent)) "K" = ["1"; "2"; "3"]
  /\ http.Header_Values (fst child_added) (header (snd child_added)) "K" = ["1"; "2"; "3"; "c"]
  /\ http.Header_Values (fst child_added) (header (snd parent)) "K" = ["1"; "2"; "3"]
  /\ http.Header_Values (fst parent_added) (header (snd parent_added)) "K" = ["1"; "2"; "3"; "o"]
  /\ http.Header_Values (fst parent_added) (header (snd child_added)) "K" = ["1"; "2"; "3"; "o"].
Proof. repeat split; vm_compute; reflexivity. Qed.

(** The parameter sources of a clone are a list of its own. *)
Lemma clone_data_copied (s : RestClient) (k : string) (v : any) (d : any) :
  data (RestClient_New s) = data s
  /\ data (Param (RestClient_New s) k v) = data s ++ [Map [(k, v)]]
  /\ data (ParamStruct (RestClient_New s) (Some d)) = data s ++ [d]
  /\ httpClient (RestClient_New s) = httpClient s.
Proof. done. Qed.

(** ** Defaults *)

Section Defaults.




End Defaults.

(** ** The form text read back *)

Section FormRoundTrip.
Import Bytes url.

Implicit Types (m vals : url.Values) (k x : string).



















End FormRoundTrip.



(** The request of the sample chain. *)
Lemma New_defaults_to_form_sample :
  exists req,
    Request (fst (chain (mem.empty_heap, New) sample_calls))
            (snd (chain (mem.empty_heap, New) sample_calls)) = Ok req
    /\ http.Method req = "GET"
    /\ url.String_ (http.URL req) = "http://h/a/b?q=go+rest&tags=x&tags=y"
    /\ http.ReqBody req = None
    /\ http.ReqHeader req !! "Accept" = Some ["text/plain"; "text/html"]
    /\ http.ReqHeader req !! "Authorization" = Some ["Basic QWxhZGRpbjpvcGVuIHNlc2FtZQ=="].
Proof. eexists. repeat split; vm_compute; reflexivity. Qed.
